(** * Xerpihan financial dashboard: a shallow embedding of [xerpihan.py]

    The script loads six CSV tables through pandas, and renders one of five
    Streamlit pages from them.  This development embeds the script as Rocq
    functions: tables are ordered lists of named columns, the Streamlit
    output is an explicit list of elements, Python exceptions are an error
    monad threaded together with the table store, and the third-party
    services whose code is not part of the script (the numeric token
    parser behind [pd.to_numeric], the Plotly Express chart builders, the
    CSV serializer behind [DataFrame.to_csv]) are section variables.

    Numbers are exact rationals: the rounding of binary floating point and
    the IEEE infinities are not modelled. *)

From Stdlib Require Import String Ascii List ZArith QArith Bool Lia.
From Stdlib Require Import DecimalString.
From stdpp Require Import base option list strings gmap.

Open Scope string_scope.
Open Scope list_scope.

(** ** Python strings *)

Module PyStr.

(** [needle in hay] on Python strings. *)
Fixpoint contains (needle hay : string) : bool :=
  String.prefix needle hay ||
  match hay with
  | EmptyString => false
  | String _ hay' => contains needle hay'
  end.

(** [sep.join(parts)]. *)
Fixpoint join (sep : string) (parts : list string) : string :=
  match parts with
  | [] => ""
  | [p] => p
  | p :: ps => p +:+ sep +:+ join sep ps
  end.

End PyStr.

(** ** pandas values *)

(** A cell of a column: a Python string, a number, or the missing value
    (NaN). *)
Inductive cell :=
| CStr (s : string)
| CNum (q : Q)
| CNaN.

(** The dtype pandas attaches to a column; the integer and floating
    dtypes are not told apart. *)
Inductive dtype := Float64 | Object.

Record Series := mkSeries { s_dtype : dtype; s_values : list cell }.

(** A table: its named columns, in column order. *)
Definition DataFrame := list (string * Series).

(** ** Python exceptions *)

Inductive exn :=
| FileNotFoundError (filename : string)
| KeyError (key_repr : string)
| OtherError (msg : string).

(** [repr(s)] of a Python string without quote characters. *)
Definition repr (s : string) : string := "'" +:+ s +:+ "'".

(** [str(e)]. *)
Definition str (e : exn) : string :=
  match e with
  | FileNotFoundError f => "[Errno 2] No such file or directory: '" +:+ f +:+ "'"
  | KeyError k => k
  | OtherError m => m
  end.

Inductive result (A : Type) :=
| Ok (a : A)
| Raise (e : exn).
Arguments Ok {A} a.
Arguments Raise {A} e.

(** ** Streamlit elements *)

(** A Plotly Express call: the builder, the frame and the keyword
    arguments the script passes. *)
Record figure := mkFigure {
  fig_kind : string;
  fig_data : DataFrame;
  fig_x : option string;
  fig_y : list string;
  fig_color : option string;
  fig_title : string;
  fig_extra : string
}.

Inductive element :=
| SidebarTitle (s : string)
| SidebarRadio (label : string) (options : list string)
| Title (s : string)
| Header (s : string)
| Subheader (s : string)
| Markdown (s : string)
| ErrorBox (msg : string)
| WarningBox (msg : string)
| Metric (label value : string)
| PlotlyChart (fig : figure)
| DownloadButton (label data file_name mime : string)
| Selectbox (label : string) (options : list string)
| DataFrameView (df : DataFrame).

(** ** The dataset loader *)

Module Loader.

(** What [pd.read_csv] finds at a path. *)
Inductive file :=
| Absent
| Unparseable (reason : string)
| Parses (df : DataFrame).

Definition filesystem := string -> file.

(** [pd.read_csv(path)]: a missing file raises [FileNotFoundError] whose
    [filename] is the path that was opened; any other failure raises an
    exception whose text is the parser's reason. *)
Definition read_csv (fs : filesystem) (path : string) : result DataFrame :=
  match fs path with
  | Absent => Raise (FileNotFoundError path)
  | Unparseable reason => Raise (OtherError reason)
  | Parses df => Ok df
  end.

Definition bind {A B} (r : result A) (k : A -> result B) : result B :=
  match r with
  | Ok a => k a
  | Raise e => Raise e
  end.

Notation "x <- r ;; k" := (bind r (fun x => k))
  (at level 100, r at next level, right associativity).

(** The six-component return value of [load_data]; [None] is Python's
    [None]. *)
Definition loaded : Type :=
  option DataFrame * option DataFrame * option DataFrame *
  option DataFrame * option DataFrame * option DataFrame.

Definition none6 : loaded := (None, None, None, None, None, None).

Definition paths : list string :=
  [ "xerpihan_combined_data.csv";
    "xerpihan_combined_data_with_growth.csv";
    "xerpihan_comprehensive_metrics.csv";
    "xerpihan_final_summary.csv";
    "xerpihan_financial_metrics.csv";
    "xerpihan_forecast_combined.csv" ].

(** The body of the [try] of [load_data]. *)
Definition load_try (fs : filesystem) : result loaded :=
  combined_data <- read_csv fs "xerpihan_combined_data.csv" ;;
  growth_data <- read_csv fs "xerpihan_combined_data_with_growth.csv" ;;
  metrics <- read_csv fs "xerpihan_comprehensive_metrics.csv" ;;
  final_summary <- read_csv fs "xerpihan_final_summary.csv" ;;
  financial_metrics <- read_csv fs "xerpihan_financial_metrics.csv" ;;
  forecast_combined <- read_csv fs "xerpihan_forecast_combined.csv" ;;
  Ok (Some combined_data, Some growth_data, Some metrics,
      Some final_summary, Some financial_metrics, Some forecast_combined).

Definition not_found_msg (filename : string) : string :=
  "Error: File '" +:+ filename +:+
  "' tidak ditemukan. Pastikan semua file CSV ada di direktori yang benar.".

Definition load_failed_msg (e : exn) : string :=
  "Error saat memuat data: " +:+ str e +:+
  ". Periksa format file CSV dan pastikan kolom yang diharapkan ada.".

(** [load_data()]: the returned tuple and the elements it displays, for one
    execution of its body.  The [st.cache_data] decorator is Streamlit's:
    what it returns across the runs of a session is not modelled. *)
Definition load_data (fs : filesystem) : loaded * list element :=
  match load_try fs with
  | Ok data => (data, [])
  | Raise (FileNotFoundError filename) =>
      (none6, [ErrorBox (not_found_msg filename)])
  | Raise e => (none6, [ErrorBox (load_failed_msg e)])
  end.

(** [data[0]]. *)
Definition first (data : loaded) : option DataFrame :=
  let '(c, _, _, _, _, _) := data in c.

(** Whether a read fails, and the first path, in reading order, whose
    read fails. *)
Definition fails (fs : filesystem) (path : string) : bool :=
  match fs path with Parses _ => false | _ => true end.

Definition first_failing (fs : filesystem) : option string :=
  List.find (fails fs) paths.

End Loader.

(** ** pandas operations used by the pages *)

Module Pandas.

(** [df.columns], as a list. *)
Definition columns (df : DataFrame) : list string := map fst df.

Fixpoint lookup_col (df : DataFrame) (key : string) : option Series :=
  match df with
  | [] => None
  | (k, s) :: rest => if String.eqb k key then Some s else lookup_col rest key
  end.

(** [df[key]] for a column label: [KeyError] when the label is absent. *)
Definition getitem (df : DataFrame) (key : string) : result Series :=
  match lookup_col df key with
  | Some s => Ok s
  | None => Raise (KeyError (repr key))
  end.

(** [df[key] = s]: overwrites the column in place, or appends it. *)
Fixpoint setitem (df : DataFrame) (key : string) (s : Series) : DataFrame :=
  match df with
  | [] => [(key, s)]
  | (k, v) :: rest =>
      if String.eqb k key then (k, s) :: rest else (k, v) :: setitem rest key s
  end.

(** [len(df)]: the number of rows. *)
Definition nrows (df : DataFrame) : nat :=
  match df with
  | [] => 0
  | (_, s) :: _ => length (s_values s)
  end.

(** [df.empty]: no column or no row. *)
Definition empty (df : DataFrame) : bool :=
  match df with
  | [] => true
  | _ => Nat.eqb (nrows df) 0
  end.

(** [series == text], element-wise. *)
Definition cell_eq_str (text : string) (c : cell) : bool :=
  match c with
  | CStr s => String.eqb s text
  | _ => false
  end.

Definition eq_str (s : Series) (text : string) : list bool :=
  map (cell_eq_str text) (s_values s).

Fixpoint select {A} (mask : list bool) (xs : list A) : list A :=
  match mask, xs with
  | true :: mask', x :: xs' => x :: select mask' xs'
  | false :: mask', _ :: xs' => select mask' xs'
  | _, _ => []
  end.

(** [df[mask]]: the rows where the boolean mask holds. *)
Definition filter_rows (df : DataFrame) (mask : list bool) : DataFrame :=
  map (fun '(k, s) => (k, mkSeries (s_dtype s) (select mask (s_values s)))) df.

(** [pd.isnull] on a cell. *)
Definition isnull (c : cell) : bool :=
  match c with CNaN => true | _ => false end.

(** [df[keys].isnull().any().any()]. *)
Fixpoint any_null (df : DataFrame) (keys : list string) : result bool :=
  match keys with
  | [] => Ok false
  | k :: ks =>
      match getitem df k, any_null df ks with
      | Ok s, Ok b => Ok (existsb isnull (s_values s) || b)
      | Raise e, _ => Raise e
      | _, Raise e => Raise e
      end
  end.

(** [df.select_dtypes(include=[np.number]).columns]. *)
Definition is_number_dtype (d : dtype) : bool :=
  match d with Float64 => true | Object => false end.

Definition numeric_columns (df : DataFrame) : list string :=
  map fst (List.filter (fun '(_, s) => is_number_dtype (s_dtype s)) df).

(** The numbers of a column, missing values skipped. *)
Fixpoint numbers (cs : list cell) : list Q :=
  match cs with
  | [] => []
  | CNum q :: cs' => q :: numbers cs'
  | _ :: cs' => numbers cs'
  end.

Definition Qsum (qs : list Q) : Q := fold_right Qplus 0%Q qs.

(** [series.mean()] on a float column: the arithmetic mean of the entries
    that are not missing; [None] is NaN, the mean of no entry at all. *)
Definition mean (s : Series) : option Q :=
  match numbers (s_values s) with
  | [] => None
  | qs => Some (Qsum qs / inject_Z (Z.of_nat (length qs)))%Q
  end.

(** *** [pd.to_numeric(series, errors='coerce')] *)

Section ToNumeric.

(** The token parser of pandas: the number a string denotes, if any. *)
Variable parse_number : string -> option Q.

Definition coerce_cell (c : cell) : cell :=
  match c with
  | CStr s =>
      match parse_number s with
      | Some q => CNum q
      | None => CNaN
      end
  | CNum q => CNum q
  | CNaN => CNaN
  end.

Definition to_numeric (s : Series) : Series :=
  mkSeries Float64 (map coerce_cell (s_values s)).

End ToNumeric.

(** A column as [read_csv] builds it: a float column holds numbers and
    missing values only. *)
Definition numeric_cell (c : cell) : bool :=
  match c with CStr _ => false | _ => true end.

Definition wf_series (s : Series) : bool :=
  match s_dtype s with
  | Float64 => forallb numeric_cell (s_values s)
  | Object => true
  end.

(** *** [df.melt(id_vars=..., var_name=..., value_name=..., value_vars=...)] *)

Fixpoint repeat_list {A} (n : nat) (xs : list A) : list A :=
  match n with
  | O => []
  | S n' => xs ++ repeat_list n' xs
  end.

Definition missing_labels (df : DataFrame) (keys : list string) : list string :=
  List.filter (fun k => negb (existsb (String.eqb k) (columns df))) keys.

Definition value_dtype (cols : list Series) : dtype :=
  if forallb (fun s => is_number_dtype (s_dtype s)) cols then Float64 else Object.

Fixpoint pick (df : DataFrame) (keys : list string) : list Series :=
  match keys with
  | [] => []
  | k :: ks =>
      match lookup_col df k with
      | Some s => s :: pick df ks
      | None => pick df ks
      end
  end.

(** The texts of the two exceptions of [melt], as pandas 2.2 words them:
    the [ValueError] for a value column that would shadow a column of the
    frame, and [str] of the [KeyError] for absent labels. *)
Definition dquote : string := String (ascii_of_nat 34) EmptyString.

Definition list_repr (labels : list string) : string :=
  "[" +:+ PyStr.join ", " (map repr labels) +:+ "]".

Definition melt_value_name_msg (value_name : string) : string :=
  "value_name (" +:+ value_name +:+
  ") cannot match an element in the DataFrame columns.".

Definition melt_missing_msg (missing : list string) : string :=
  dquote +:+
  "The following id_vars or value_vars are not present in the DataFrame: " +:+
  list_repr missing +:+ dquote.

Definition melt (df : DataFrame) (id_vars : list string)
    (value_vars : option (list string)) (var_name value_name : string)
    : result DataFrame :=
  if existsb (String.eqb value_name) (columns df)
  then Raise (OtherError (melt_value_name_msg value_name)) else
  let vars :=
    match value_vars with
    | Some vs => vs
    | None =>
        List.filter (fun k => negb (existsb (String.eqb k) id_vars)) (columns df)
    end in
  match missing_labels df (id_vars ++ vars) with
  | [] =>
      let n := nrows df in
      let k := length vars in
      let ids :=
        map (fun i =>
               match lookup_col df i with
               | Some s => (i, mkSeries (s_dtype s) (repeat_list k (s_values s)))
               | None => (i, mkSeries Object [])
               end) id_vars in
      let variable :=
        mkSeries Object (flat_map (fun v => repeat (CStr v) n) vars) in
      let vals := pick df vars in
      let value :=
        mkSeries (value_dtype vals) (flat_map s_values vals) in
      Ok (ids ++ [(var_name, variable); (value_name, value)])
  | missing => Raise (KeyError (melt_missing_msg missing))
  end.

(** [pd.DataFrame({label: series, ...})]. *)
Definition of_dict (cols : list (string * Series)) : DataFrame := cols.

End Pandas.

(** ** Number formatting *)

Module Format.

Definition digits (n : Z) : string :=
  NilZero.string_of_uint (N.to_uint (Z.to_N n)).

(** The nearest integer to [n / d] for [0 <= n], [0 < d], ties to even. *)
Definition round_half_even (n d : Z) : Z :=
  let z := (n / d)%Z in
  let r := (n mod d)%Z in
  match (2 * r ?= d)%Z with
  | Lt => z
  | Gt => (z + 1)%Z
  | Eq => if Z.even z then z else (z + 1)%Z
  end.

(** [f"{x:.2f}"]: two decimals, ties on the exact value to even, the sign
    kept; [None] is NaN. *)
Definition format_2f (x : option Q) : string :=
  match x with
  | None => "nan"
  | Some q =>
      let m := round_half_even (Z.abs (Qnum q) * 100) (Z.pos (Qden q)) in
      let whole := digits (m / 100) in
      let frac := digits (m mod 100) in
      let frac2 := if (m mod 100 <? 10)%Z then "0" +:+ frac else frac in
      (if (Qnum q <? 0)%Z then "-" else "") +:+ whole +:+ "." +:+ frac2
  end.

End Format.

(** ** The script *)

Module Script.

Import Pandas.

(** The six module-level table variables. *)
Record TableSet := mkTables {
  combined_data : DataFrame;
  growth_data : DataFrame;
  metrics : DataFrame;
  final_summary : DataFrame;
  financial_metrics : DataFrame;
  forecast_combined : DataFrame
}.

Inductive table_id :=
| Combined | Growth | Metrics | FinalSummary | FinancialMetrics | Forecast.

Definition get (ts : TableSet) (i : table_id) : DataFrame :=
  match i with
  | Combined => combined_data ts
  | Growth => growth_data ts
  | Metrics => metrics ts
  | FinalSummary => final_summary ts
  | FinancialMetrics => financial_metrics ts
  | Forecast => forecast_combined ts
  end.

Definition set (ts : TableSet) (i : table_id) (df : DataFrame) : TableSet :=
  match i with
  | Combined => mkTables df (growth_data ts) (metrics ts) (final_summary ts)
                  (financial_metrics ts) (forecast_combined ts)
  | Growth => mkTables (combined_data ts) df (metrics ts) (final_summary ts)
                  (financial_metrics ts) (forecast_combined ts)
  | Metrics => mkTables (combined_data ts) (growth_data ts) df (final_summary ts)
                  (financial_metrics ts) (forecast_combined ts)
  | FinalSummary => mkTables (combined_data ts) (growth_data ts) (metrics ts) df
                  (financial_metrics ts) (forecast_combined ts)
  | FinancialMetrics => mkTables (combined_data ts) (growth_data ts) (metrics ts)
                  (final_summary ts) df (forecast_combined ts)
  | Forecast => mkTables (combined_data ts) (growth_data ts) (metrics ts)
                  (final_summary ts) (financial_metrics ts) df
  end.

(** Statements of the script: they read and overwrite the tables, display
    elements, and may raise.  What was displayed and overwritten before an
    exception stays so. *)
Definition M (A : Type) : Type :=
  TableSet -> result A * TableSet * list element.

Definition ret {A} (a : A) : M A := fun ts => (Ok a, ts, []).

Definition bind {A B} (m : M A) (k : A -> M B) : M B :=
  fun ts =>
    match m ts with
    | (Ok a, ts1, shown1) =>
        match k a ts1 with
        | (r, ts2, shown2) => (r, ts2, shown1 ++ shown2)
        end
    | (Raise e, ts1, shown1) => (Raise e, ts1, shown1)
    end.

Notation "x <- m ;; k" := (bind m (fun x => k))
  (at level 100, m at next level, right associativity).
Notation "m ;;; k" := (bind m (fun _ => k))
  (at level 100, right associativity).

Definition raise {A} (e : exn) : M A := fun ts => (Raise e, ts, []).

Definition lift {A} (r : result A) : M A :=
  match r with
  | Ok a => ret a
  | Raise e => raise e
  end.

(** An [st.*] display call. *)
Definition show (e : element) : M unit := fun ts => (Ok tt, ts, [e]).

(** Reading a table variable, and an in-place update of the table it
    refers to. *)
Definition read (i : table_id) : M DataFrame := fun ts => (Ok (get ts i), ts, []).

Definition write (i : table_id) (df : DataFrame) : M unit :=
  fun ts => (Ok tt, set ts i df, []).

(** [try: body / except Exception as e: handler(e)]. *)
Definition try_except (body : M unit) (handler : exn -> M unit) : M unit :=
  fun ts =>
    match body ts with
    | (Ok tt, ts1, shown1) => (Ok tt, ts1, shown1)
    | (Raise e, ts1, shown1) =>
        match handler e ts1 with
        | (r, ts2, shown2) => (r, ts2, shown1 ++ shown2)
        end
    end.

Definition when (b : bool) (m : M unit) : M unit := if b then m else ret tt.

(** [st.selectbox(label, options)]: displays the widget and returns the
    option the user has selected, the first one by default; [None] when
    there is no option. *)
Definition selectbox (label : string) (options : list string) (choice : nat)
    : M (option string) :=
  show (Selectbox label options) ;;;
  ret (match nth_error options choice with
       | Some o => Some o
       | None => head options
       end).

(** [f"{o}"] for a value that is a string or [None]. *)
Definition fmt (o : option string) : string :=
  match o with Some s => s | None => "None" end.

(** The state of the three selection widgets. *)
Record widgets := mkWidgets {
  dataset_choice : nat;
  x_axis_choice : nat;
  y_axis_choice : nat
}.

(** [[str(year) for year in range(2024, 2032)]]. *)
Definition years : list string :=
  map (fun y => Format.digits (Z.of_nat y)) (seq 2024 8).

(** [all(year in df.columns for year in years)]. *)
Definition has_all_years (df : DataFrame) : bool :=
  forallb (fun year => existsb (String.eqb year) (columns df)) years.

(** [[col for col in df.columns if 'Growth' in col]]. *)
Definition growth_cols_of (df : DataFrame) : list string :=
  List.filter (fun col => PyStr.contains "Growth" col) (columns df).

(** The fixed selector of the data exploration and its dictionary. *)
Definition dataset_names : list string :=
  ["Combined Data"; "Growth Data"; "Metrics"; "Final Summary"; "Financial Metrics"].

Definition datasets : gmap string table_id :=
  <["Combined Data" := Combined]>
  (<["Growth Data" := Growth]>
  (<["Metrics" := Metrics]>
  (<["Final Summary" := FinalSummary]>
  (<["Financial Metrics" := FinancialMetrics]> ∅)))).

(** [datasets[dataset_name]]. *)
Definition datasets_getitem (dataset_name : option string) : M DataFrame :=
  match dataset_name with
  | Some name =>
      match datasets !! name with
      | Some i => read i
      | None => raise (KeyError (repr name))
      end
  | None => raise (KeyError "None")
  end.

Definition num (n : Z) (d : positive) : cell := CNum (n # d).

Definition strs (l : list string) : Series := mkSeries Object (map CStr l).
Definition floats (l : list cell) : Series := mkSeries Float64 l.

(** The literal frames of the risk and portfolio pages. *)
Definition risk_components : DataFrame :=
  of_dict
    [ ("Scenario", strs ["Optimistic"; "Moderate"; "Pessimistic"]);
      ("Market_Risk", floats [num 15 100; num 12 100; num 10 100]);
      ("Credit_Risk", floats [num 8 100; num 7 100; num 6 100]);
      ("Operational_Risk", floats [num 5 100; num 4 100; num 3 100]) ].

Definition portfolio_data : DataFrame :=
  of_dict
    [ ("Method", strs ["HJB"; "Markowitz"; "Black-Litterman"; "RL"]);
      ("Optimistic", floats [num 1000 1000; num 333 1000; num 407 1000; num 55 1000]);
      ("Moderate", floats [num 0 1000; num 333 1000; num 407 1000; num 775 1000]);
      ("Pessimistic", floats [num 0 1000; num 333 1000; num 296 1000; num 170 1000]) ].

Definition performance_data : DataFrame :=
  of_dict
    [ ("Method", strs ["HJB"; "Markowitz"; "Black-Litterman"; "RL"]);
      ("Expected_Return",
       floats [num 1854 10000; num 1400 10000; num 786 10000; num 1348 10000]);
      ("Sharpe_Ratio",
       floats [num 1017000000000000 1; num 1985000000000000 1;
               num 367900000000000 1; num 1746000000000000 1]) ].

(** *** The pages *)

Section Pages.

(** The token parser behind [pd.to_numeric]. *)
Variable parse_number : string -> option Q.

(** Plotly Express: the exception a chart builder raises on a call, if
    any. *)
Variable px : figure -> option exn.

(** [df.to_csv(index=False)]. *)
Variable to_csv : DataFrame -> string.

(** A [px.line], [px.bar], [px.scatter] or [px.box] call followed by
    [st.plotly_chart(fig, use_container_width=True)]. *)
Definition plotly_chart (fig : figure) : M unit :=
  match px fig with
  | Some e => raise e
  | None => show (PlotlyChart fig)
  end.

(** [metrics[key] = pd.to_numeric(metrics[key], errors='coerce')]. *)
Definition coerce_column (key : string) : M unit :=
  df <- read Metrics ;;
  s <- lift (getitem df key) ;;
  write Metrics (setitem df key (to_numeric parse_number s)).

(** [st.metric(label=label, value=f"{metrics[key].mean():.2f}%")]. *)
Definition metric_mean (label key : string) : M unit :=
  df <- read Metrics ;;
  s <- lift (getitem df key) ;;
  show (Metric label (Format.format_2f (mean s) +:+ "%")).

Definition nan_warning : element :=
  WarningBox
    "Beberapa data numerik tidak valid dan diubah menjadi NaN. Periksa data Anda.".

Definition kpi_columns : list string :=
  ["Revenue_CAGR"; "Avg_EBITDA_Margin"; "Cost_to_Revenue"].

(** Lines 52-70. *)
Definition overview_kpi : M unit :=
  try_except
    (coerce_column "Revenue_CAGR" ;;;
     coerce_column "Avg_EBITDA_Margin" ;;;
     coerce_column "Cost_to_Revenue" ;;;
     df <- read Metrics ;;
     invalid <- lift (any_null df kpi_columns) ;;
     when invalid (show nan_warning) ;;;
     metric_mean "Rata-rata Revenue CAGR" "Revenue_CAGR" ;;;
     metric_mean "Rata-rata EBITDA Margin" "Avg_EBITDA_Margin" ;;;
     metric_mean "Rata-rata Efisiensi Biaya" "Cost_to_Revenue")
    (fun e => show (ErrorBox ("Error saat mengkonversi data numerik: " +:+ str e))).

Definition no_revenue_msg : string :=
  "Error: Tidak ada data pendapatan yang ditemukan.".
Definition no_years_msg : string :=
  "Error: Beberapa kolom tahun tidak ada di data pendapatan.".
Definition revenue_failed_msg (e : exn) : string :=
  "Error saat membuat visualisasi tren pendapatan: " +:+ str e.

Definition revenue_fig (revenue_data : DataFrame) : figure :=
  mkFigure "line" revenue_data (Some "Scenario") years None
    "Tren Pendapatan (2024-2031)" "".

(** Lines 74-86. *)
Definition overview_revenue : M unit :=
  try_except
    (df <- read Combined ;;
     category <- lift (getitem df "Category") ;;
     let revenue_data := filter_rows df (eq_str category "Pendapatan") in
     if empty revenue_data then show (ErrorBox no_revenue_msg)
     else if negb (has_all_years revenue_data) then show (ErrorBox no_years_msg)
     else plotly_chart (revenue_fig revenue_data))
    (fun e => show (ErrorBox (revenue_failed_msg e))).

(** Lines 88-94. *)
Definition overview_download : M unit :=
  show (Subheader "Unduh Data") ;;;
  fm <- read FinancialMetrics ;;
  show (DownloadButton "Unduh Financial Metrics" (to_csv fm)
          "financial_metrics.csv" "text/csv") ;;;
  fs <- read FinalSummary ;;
  show (DownloadButton "Unduh Summary Data" (to_csv fs)
          "final_summary.csv" "text/csv").

(** Lines 96-100. *)
Definition overview_explore (w : widgets) : M unit :=
  show (Subheader "Eksplorasi Data") ;;;
  dataset_name <- selectbox "Pilih dataset untuk dieksplorasi" dataset_names
                    (dataset_choice w) ;;
  df <- datasets_getitem dataset_name ;;
  show (DataFrameView df).

Definition overview (w : widgets) : M unit :=
  show (Title "Xerpihan Financial Analysis Dashboard") ;;;
  show (Header "Indikator Kinerja Utama") ;;;
  overview_kpi ;;;
  show (Subheader "Tren Pendapatan per Skenario") ;;;
  overview_revenue ;;;
  overview_download ;;;
  overview_explore w.

(** Lines 106-111. *)
Definition financial_metrics_bar : M unit :=
  try_except
    (df <- read FinancialMetrics ;;
     plotly_chart
       (mkFigure "bar" df (Some "Scenario")
          ["Revenue_CAGR"; "Avg_EBITDA_Margin"; "Avg_Net_Margin"] None
          "Perbandingan Metrik Keuangan" "barmode=group"))
    (fun e => show (ErrorBox
       ("Error saat membuat visualisasi metrik keuangan: " +:+ str e))).

(** Lines 113-118. *)
Definition financial_growth_line : M unit :=
  try_except
    (df <- read FinalSummary ;;
     plotly_chart
       (mkFigure "line" df (Some "Scenario") ["Revenue_CAGR"; "EBITDA_CAGR"] None
          "Metrik Pertumbuhan per Skenario" ""))
    (fun e => show (ErrorBox
       ("Error saat membuat visualisasi analisis pertumbuhan: " +:+ str e))).

(** Lines 121-136. *)
Definition financial_custom (w : widgets) : M unit :=
  try_except
    (df <- read FinancialMetrics ;;
     let numeric_cols := numeric_columns df in
     match numeric_cols with
     | [] => show (ErrorBox
         "Error: Tidak ada kolom numerik yang ditemukan di financial_metrics.")
     | _ =>
         x_axis <- selectbox "Pilih metrik sumbu X" numeric_cols (x_axis_choice w) ;;
         y_axis <- selectbox "Pilih metrik sumbu Y" numeric_cols (y_axis_choice w) ;;
         plotly_chart
           (mkFigure "scatter" df x_axis (option_list y_axis) (Some "Scenario")
              (fmt y_axis +:+ " vs " +:+ fmt x_axis +:+ " per Skenario")
              "trendline=ols")
     end)
    (fun e => show (ErrorBox ("Error saat membuat visualisasi kustom: " +:+ str e))).

Definition financial_analysis (w : widgets) : M unit :=
  show (Title "Analisis Kinerja Keuangan") ;;;
  show (Subheader "Metrik Keuangan Utama per Skenario") ;;;
  financial_metrics_bar ;;;
  show (Subheader "Analisis Pertumbuhan") ;;;
  financial_growth_line ;;;
  show (Subheader "Visualisasi Kustom") ;;;
  financial_custom w.

(** Lines 143-155. *)
Definition risk_metrics_bar : M unit :=
  try_except
    (df <- read Metrics ;;
     scenario <- lift (getitem df "Scenario") ;;
     revenue_volatility <- lift (getitem df "Revenue_Volatility") ;;
     margin_volatility <- lift (getitem df "Margin_Volatility") ;;
     let risk_data :=
       of_dict [ ("Scenario", scenario);
                 ("Revenue_Volatility", revenue_volatility);
                 ("Margin_Volatility", margin_volatility) ] in
     plotly_chart
       (mkFigure "bar" risk_data (Some "Scenario")
          ["Revenue_Volatility"; "Margin_Volatility"] None
          "Metrik Volatilitas per Skenario" "barmode=group"))
    (fun e =>
       match e with
       | KeyError _ =>
           show (ErrorBox ("Error: Kolom " +:+ str e +:+
                           " tidak ditemukan di data metrics."))
       | _ => show (ErrorBox ("Error saat membuat visualisasi risiko: " +:+ str e))
       end).

(** Lines 159-170. *)
Definition risk_decomposition : M unit :=
  try_except
    (long <- lift (melt risk_components ["Scenario"] None "Risk_Type" "Risk_Level") ;;
     plotly_chart
       (mkFigure "bar" long (Some "Scenario") ["Risk_Level"] (Some "Risk_Type")
          "Dekomposisi Risiko per Skenario" ""))
    (fun e => show (ErrorBox
       ("Error saat membuat visualisasi dekomposisi risiko: " +:+ str e))).

Definition risk_analysis : M unit :=
  show (Title "Analisis Risiko") ;;;
  show (Subheader "Metrik Risiko per Skenario") ;;;
  risk_metrics_bar ;;;
  show (Subheader "Analisis Dekomposisi Risiko") ;;;
  risk_decomposition.

(** Lines 177-188. *)
Definition portfolio_allocation : M unit :=
  try_except
    (long <- lift (melt portfolio_data ["Method"] None "Scenario" "Weight") ;;
     plotly_chart
       (mkFigure "bar" long (Some "Method") ["Weight"] (Some "Scenario")
          "Alokasi Portofolio per Metode" ""))
    (fun e => show (ErrorBox
       ("Error saat membuat visualisasi alokasi portofolio: " +:+ str e))).

(** Lines 191-200. *)
Definition portfolio_performance : M unit :=
  try_except
    (plotly_chart
       (mkFigure "scatter" performance_data (Some "Expected_Return")
          ["Sharpe_Ratio"] (Some "Method") "Analisis Risiko-Hasil"
          "size=[20, 20, 20, 20]"))
    (fun e => show (ErrorBox
       ("Error saat membuat visualisasi metrik kinerja: " +:+ str e))).

Definition portfolio_optimization : M unit :=
  show (Title "Optimasi Portofolio") ;;;
  show (Subheader "Alokasi Portofolio per Metode") ;;;
  portfolio_allocation ;;;
  show (Subheader "Metrik Kinerja per Metode") ;;;
  portfolio_performance.

Definition no_forecast_msg : string :=
  "Error: Tidak ada data peramalan pendapatan yang ditemukan.".
Definition no_forecast_years_msg : string :=
  "Error: Beberapa kolom tahun tidak ada di data peramalan.".
Definition forecast_failed_msg (e : exn) : string :=
  "Error saat membuat visualisasi peramalan pendapatan: " +:+ str e.

Definition forecast_fig (forecast_data : DataFrame) : figure :=
  mkFigure "line" forecast_data (Some "Scenario") years None
    "Peramalan Pendapatan (2024-2031)" "".

(** Lines 207-219. *)
Definition forecasting_revenue : M unit :=
  try_except
    (df <- read Forecast ;;
     category <- lift (getitem df "Category") ;;
     let forecast_data := filter_rows df (eq_str category "Pendapatan") in
     if empty forecast_data then show (ErrorBox no_forecast_msg)
     else if negb (has_all_years forecast_data)
          then show (ErrorBox no_forecast_years_msg)
     else plotly_chart (forecast_fig forecast_data))
    (fun e => show (ErrorBox (forecast_failed_msg e))).

Definition no_growth_cols_msg : string :=
  "Error: Tidak ada kolom pertumbuhan yang ditemukan di growth_data.".
Definition growth_failed_msg (e : exn) : string :=
  "Error saat membuat visualisasi analisis pertumbuhan: " +:+ str e.

Definition growth_fig (long : DataFrame) : figure :=
  mkFigure "box" long (Some "Scenario") ["value"] None
    "Distribusi Tingkat Pertumbuhan per Skenario" "".

(** Lines 222-230. *)
Definition forecasting_growth : M unit :=
  try_except
    (df <- read Growth ;;
     let growth_cols := growth_cols_of df in
     match growth_cols with
     | [] => show (ErrorBox no_growth_cols_msg)
     | _ =>
         long <- lift (melt df ["Scenario"] (Some growth_cols) "variable" "value") ;;
         plotly_chart (growth_fig long)
     end)
    (fun e => show (ErrorBox (growth_failed_msg e))).

Definition forecasting : M unit :=
  show (Title "Peramalan Keuangan") ;;;
  show (Subheader "Peramalan Pendapatan per Skenario") ;;;
  forecasting_revenue ;;;
  show (Subheader "Analisis Tingkat Pertumbuhan") ;;;
  forecasting_growth.

Definition pages : list string :=
  ["Overview"; "Financial Analysis"; "Risk Analysis";
   "Portfolio Optimization"; "Forecasting"].

(** The [if page == ... elif ...] chain of lines 48-230. *)
Definition render (page : string) (w : widgets) : M unit :=
  if String.eqb page "Overview" then overview w
  else if String.eqb page "Financial Analysis" then financial_analysis w
  else if String.eqb page "Risk Analysis" then risk_analysis
  else if String.eqb page "Portfolio Optimization" then portfolio_optimization
  else if String.eqb page "Forecasting" then forecasting
  else ret tt.

Definition footer : list element :=
  [Markdown "---";
   Markdown "Xerpihan Financial Analysis Dashboard | Dibuat dengan Streamlit"].

(** How a run of the script ends: halted by [st.stop()], run to the
    footer, aborted by an exception nothing caught, or past the guard of
    line 42 with a table variable bound to [None]. *)
Inductive outcome :=
| Stopped (shown : list element)
| Finished (ts : TableSet) (shown : list element)
| Aborted (e : exn) (shown : list element)
| Unusable (shown : list element).

(** The tuple unpacking of line 45. *)
Definition unpack (data : Loader.loaded) : option TableSet :=
  match data with
  | (Some c, Some g, Some m, Some s, Some f, Some fc) => Some (mkTables c g m s f fc)
  | _ => None
  end.

Definition sidebar : list element :=
  [SidebarTitle "Navigasi"; SidebarRadio "Pilih halaman" pages].

(** Lines 33-234, on the value [load_data()] returned and the elements it
    displayed.  The pages are embedded for table variables bound to
    tables; a run that passes the guard with some variable bound to [None]
    is [Unusable]. *)
Definition run_loaded (data : Loader.loaded) (shown0 : list element)
    (page : string) (w : widgets) : outcome :=
  match Loader.first data with
  | None => Stopped (sidebar ++ shown0)
  | Some _ =>
      match unpack data with
      | Some ts =>
          match render page w ts with
          | (Ok _, ts', shown) => Finished ts' (sidebar ++ shown0 ++ shown ++ footer)
          | (Raise e, _, shown) => Aborted e (sidebar ++ shown0 ++ shown)
          end
      | None => Unusable (sidebar ++ shown0)
      end
  end.

(** One run of the script on a file system. *)
Definition run (fs : Loader.filesystem) (page : string) (w : widgets) : outcome :=
  let '(data, shown0) := Loader.load_data fs in
  run_loaded data shown0 page w.

End Pages.

End Script.

(** ** Concrete inputs *)

Module Samples.

Import Pandas Script.

(** A one-column table, for files that load. *)
Definition scenario_table : DataFrame :=
  [("Scenario", strs ["Optimistic"; "Moderate"])].

(** Every file is missing. *)
Definition fs_missing : Loader.filesystem := fun _ => Loader.Absent.

(** The metrics file exists but is empty, which pandas rejects with
    [EmptyDataError]; the other five files load. *)
Definition fs_empty_metrics : Loader.filesystem :=
  fun path =>
    if String.eqb path "xerpihan_comprehensive_metrics.csv"
    then Loader.Unparseable "No columns to parse from file"
    else Loader.Parses scenario_table.

(** All six files load. *)
Definition fs_ok : Loader.filesystem := fun _ => Loader.Parses scenario_table.

(** A parser for plain decimal tokens ([12.5], [-3], [8.0]); it stands
    for the token parser of pandas in the examples. *)
Definition digit_value (c : ascii) : option Z :=
  let n := nat_of_ascii c in
  if (48 <=? n)%nat && (n <=? 57)%nat then Some (Z.of_nat (n - 48)) else None.

Fixpoint digits_value (s : string) (acc : Z) : option Z :=
  match s with
  | EmptyString => Some acc
  | String c s' =>
      match digit_value c with
      | Some d => digits_value s' (acc * 10 + d)%Z
      | None => None
      end
  end.

Fixpoint split_point (s : string) : string * option string :=
  match s with
  | EmptyString => (EmptyString, None)
  | String c s' =>
      if Ascii.eqb c "."%char then (EmptyString, Some s')
      else let '(a, b) := split_point s' in (String c a, b)
  end.

Definition parse_unsigned (s : string) : option Q :=
  let '(whole, frac) := split_point s in
  match whole, digits_value whole 0 with
  | EmptyString, _ | _, None => None
  | _, Some w =>
      match frac with
      | None => Some (inject_Z w)
      | Some f =>
          match digits_value f 0 with
          | Some v =>
              let scale := Z.to_pos (10 ^ Z.of_nat (String.length f)) in
              Some ((w * Z.pos scale + v) # scale)
          | None => None
          end
      end
  end.

Definition parse_decimal (s : string) : option Q :=
  match s with
  | String "-"%char s' => option_map Qopp (parse_unsigned s')
  | _ => parse_unsigned s
  end.

(** Plotly Express accepting every call. *)
Definition px_accepts : figure -> option exn := fun _ => None.

(** Plotly Express rejecting a call that names a column the frame lacks. *)
Definition px_checks : figure -> option exn :=
  fun fig =>
    match missing_labels (fig_data fig)
            (option_list (fig_x fig) ++ fig_y fig ++ option_list (fig_color fig)) with
    | [] => None
    | missing => Some (OtherError ("missing columns: " +:+ PyStr.join ", " missing))
    end.

(** The header line of the export; it stands for the serializer where the
    text it produces plays no part. *)
Definition header_line (df : DataFrame) : string := PyStr.join "," (columns df).

(** The two rows of the KPI scenario, as a table of their own. *)
Definition metrics_two_rows : DataFrame :=
  [ ("Scenario", strs ["Optimistic"; "Moderate"]);
    ("Revenue_CAGR", floats [num 25 2; num 8 1]) ].

(** The same rows in a table that carries the other two KPI columns. *)
Definition metrics_three_kpis : DataFrame :=
  metrics_two_rows ++
  [ ("Avg_EBITDA_Margin", floats [num 30 1; num 25 1]);
    ("Cost_to_Revenue", floats [num 70 1; num 75 1]) ].

(** A metrics table read from a file with a bad token: pandas keeps the
    column as text. *)
Definition metrics_bad_token : DataFrame :=
  [ ("Scenario", strs ["Optimistic"; "Moderate"]);
    ("Revenue_CAGR", strs ["12.5"; "abc"]);
    ("Avg_EBITDA_Margin", floats [num 30 1; num 25 1]);
    ("Cost_to_Revenue", floats [num 70 1; num 75 1]) ].


(** A metrics table without the cost column. *)
Definition metrics_no_cost : DataFrame :=
  metrics_two_rows ++ [ ("Avg_EBITDA_Margin", floats [num 30 1; num 25 1]) ].

(** Time-series tables: one without any revenue row, one with a revenue
    row but only the first year column, one with a revenue row and the
    eight year columns. *)
Definition year_columns (values : list cell) : DataFrame :=
  map (fun year => (year, floats values)) years.

Definition combined_costs_only : DataFrame :=
  [ ("Scenario", strs ["Optimistic"; "Moderate"]);
    ("Category", strs ["Biaya"; "Biaya"]);
    ("2024", floats [num 10 1; num 9 1]) ].

Definition combined_one_year : DataFrame :=
  [ ("Scenario", strs ["Optimistic"; "Moderate"]);
    ("Category", strs ["Pendapatan"; "Biaya"]);
    ("2024", floats [num 10 1; num 9 1]) ].

Definition combined_all_years : DataFrame :=
  [ ("Scenario", strs ["Optimistic"; "Moderate"]);
    ("Category", strs ["Pendapatan"; "Biaya"]) ] ++
  year_columns [num 10 1; num 9 1].

Definition tables_with_combined (c : DataFrame) : TableSet :=
  mkTables c scenario_table scenario_table scenario_table scenario_table
    scenario_table.

(** A growth table with the four columns of the discovery scenario. *)
Definition growth_four_columns : DataFrame :=
  [ ("Scenario", strs ["Optimistic"; "Moderate"]);
    ("Revenue_Growth", floats [num 5 100; num 3 100]);
    ("EBITDA_Growth", floats [num 4 100; num 2 100]);
    ("Notes", strs ["a"; "b"]) ].

(** The six tables, with a chosen metrics table. *)
Definition tables_with_metrics (m : DataFrame) : TableSet :=
  mkTables scenario_table scenario_table m scenario_table scenario_table
    scenario_table.

Definition first_choices : widgets := mkWidgets 0 0 0.

End Samples.

(** ** Vocabulary of the properties *)

Module Props.

Import Pandas.

(** [n] is [s] coerced: same length; a missing value exactly where [s] has
    a token that denotes no number or is already missing; the denoted
    number everywhere else. *)
Definition coerced (parse_number : string -> option Q) (s n : Series) : Prop :=
  length (s_values n) = length (s_values s) /\
  (forall i tok,
     s_values s !! i = Some (CStr tok) -> parse_number tok = None ->
     s_values n !! i = Some CNaN) /\
  (forall i tok q,
     s_values s !! i = Some (CStr tok) -> parse_number tok = Some q ->
     s_values n !! i = Some (CNum q)) /\
  (forall i q, s_values s !! i = Some (CNum q) -> s_values n !! i = Some (CNum q)) /\
  (forall i,
     s_values n !! i = Some CNaN <->
     s_values s !! i = Some CNaN \/
     exists tok, s_values s !! i = Some (CStr tok) /\ parse_number tok = None).

(** What a revenue block displays on a time-series table, given its three
    messages and its chart. *)
Definition trend_shown (px : figure -> option exn) (df : DataFrame)
    (no_rows no_years : string) (failed : exn -> string)
    (fig : DataFrame -> figure) : element :=
  match lookup_col df "Category" with
  | None => ErrorBox (failed (KeyError (repr "Category")))
  | Some category =>
      let rows := filter_rows df (eq_str category "Pendapatan") in
      if empty rows then ErrorBox no_rows
      else if Script.has_all_years rows then
        match px (fig rows) with
        | None => PlotlyChart (fig rows)
        | Some e => ErrorBox (failed e)
        end
      else ErrorBox no_years
  end.

(** What the growth block displays on a growth table. *)
Definition growth_shown (px : figure -> option exn) (df : DataFrame) : element :=
  match Script.growth_cols_of df with
  | [] => ErrorBox Script.no_growth_cols_msg
  | growth_cols =>
      match melt df ["Scenario"] (Some growth_cols) "variable" "value" with
      | Raise e => ErrorBox (Script.growth_failed_msg e)
      | Ok long =>
          match px (Script.growth_fig long) with
          | None => PlotlyChart (Script.growth_fig long)
          | Some e => ErrorBox (Script.growth_failed_msg e)
          end
      end
  end.

(** What a block displayed: it completed when it displayed something and no
    error; it reported when it displayed one error, after at most the
    widgets it had drawn. *)
Definition is_error (e : element) : bool :=
  match e with ErrorBox _ => true | _ => false end.

Definition completes (shown : list element) : bool :=
  match shown with
  | [] => false
  | _ => forallb (fun e => negb (is_error e)) shown
  end.

Fixpoint reports (shown : list element) : bool :=
  match shown with
  | [ErrorBox _] => true
  | Selectbox _ _ :: rest => reports rest
  | _ => false
  end.

Definition slot_filled (shown : list element) : bool :=
  completes shown || reports shown.

(** A block that raises nothing and displays a filled slot; a quiet block
    moreover leaves the tables as they were. *)
Definition guarded (m : Script.M unit) : Prop :=
  forall ts, exists ts' shown, m ts = (Ok tt, ts', shown) /\ slot_filled shown = true.

Definition quiet (m : Script.M unit) : Prop :=
  forall ts, exists shown, m ts = (Ok tt, ts, shown) /\ slot_filled shown = true.

(** The pages as sequences of display calls and blocks. *)
Inductive item :=
| Display (e : element)
| Block (m : Script.M unit).

Definition run_item (it : item) : Script.M unit :=
  match it with
  | Display e => Script.show e
  | Block m => m
  end.

Fixpoint exec (items : list item) : Script.M unit :=
  match items with
  | [] => Script.ret tt
  | it :: rest => Script.bind (run_item it) (fun _ => exec rest)
  end.

(** What each item displays, on the tables its predecessors left. *)
Fixpoint trace (items : list item) (ts : Script.TableSet) : list (list element) :=
  match items with
  | [] => []
  | it :: rest =>
      let '(_, ts1, shown) := run_item it ts in shown :: trace rest ts1
  end.

Section Plan.

Variable parse_number : string -> option Q.
Variable px : figure -> option exn.
Variable to_csv : DataFrame -> string.

Definition plan (page : string) (w : Script.widgets) : list item :=
  if String.eqb page "Overview" then
    [ Display (Title "Xerpihan Financial Analysis Dashboard");
      Display (Header "Indikator Kinerja Utama");
      Block (Script.overview_kpi parse_number);
      Display (Subheader "Tren Pendapatan per Skenario");
      Block (Script.overview_revenue px);
      Block (Script.overview_download to_csv);
      Block (Script.overview_explore w) ]
  else if String.eqb page "Financial Analysis" then
    [ Display (Title "Analisis Kinerja Keuangan");
      Display (Subheader "Metrik Keuangan Utama per Skenario");
      Block (Script.financial_metrics_bar px);
      Display (Subheader "Analisis Pertumbuhan");
      Block (Script.financial_growth_line px);
      Display (Subheader "Visualisasi Kustom");
      Block (Script.financial_custom px w) ]
  else if String.eqb page "Risk Analysis" then
    [ Display (Title "Analisis Risiko");
      Display (Subheader "Metrik Risiko per Skenario");
      Block (Script.risk_metrics_bar px);
      Display (Subheader "Analisis Dekomposisi Risiko");
      Block (Script.risk_decomposition px) ]
  else if String.eqb page "Portfolio Optimization" then
    [ Display (Title "Optimasi Portofolio");
      Display (Subheader "Alokasi Portofolio per Metode");
      Block (Script.portfolio_allocation px);
      Display (Subheader "Metrik Kinerja per Metode");
      Block (Script.portfolio_performance px) ]
  else if String.eqb page "Forecasting" then
    [ Display (Title "Peramalan Keuangan");
      Display (Subheader "Peramalan Pendapatan per Skenario");
      Block (Script.forecasting_revenue px);
      Display (Subheader "Analisis Tingkat Pertumbuhan");
      Block (Script.forecasting_growth px) ]
  else [].

(** The metrics table the KPI block leaves: the KPI columns coerced in
    place, in order, up to the first one that is absent. *)
Definition kpi_store (df : DataFrame) : DataFrame :=
  match lookup_col df "Revenue_CAGR" with
  | None => df
  | Some s1 =>
      let df1 := setitem df "Revenue_CAGR" (to_numeric parse_number s1) in
      match lookup_col df "Avg_EBITDA_Margin" with
      | None => df1
      | Some s2 =>
          let df2 := setitem df1 "Avg_EBITDA_Margin" (to_numeric parse_number s2) in
          match lookup_col df "Cost_to_Revenue" with
          | None => df2
          | Some s3 => setitem df2 "Cost_to_Revenue" (to_numeric parse_number s3)
          end
      end
  end.

End Plan.

(** The error the KPI block displays for an absent column. *)
Definition kpi_error (key : string) : element :=
  ErrorBox ("Error saat mengkonversi data numerik: " +:+ repr key).

End Props.

(** ** Shapes of frames and of what a block displays *)

Module Shapes.

Import Pandas.

(** Every column of the frame has [n] entries. *)
Definition rectangular (df : DataFrame) (n : nat) : Prop :=
  Forall (fun '(_, s) => length (s_values s) = n) df.

(** Whether the frame has a column of that label. *)
Definition has_column (df : DataFrame) (key : string) : bool :=
  match lookup_col df key with Some _ => true | None => false end.

(** The first of the labels, in their order, that the frame lacks. *)
Definition first_absent (df : DataFrame) (keys : list string) : option string :=
  List.find
    (fun k => match lookup_col df k with None => true | Some _ => false end) keys.

(** What a guarded chart call displays: the chart, or the error of its
    handler. *)
Definition chart_or_error (px : figure -> option exn) (fig : figure)
    (failed : exn -> string) : element :=
  match px fig with
  | None => PlotlyChart fig
  | Some e => ErrorBox (failed e)
  end.

(** The option a selector in state [choice] returns. *)
Definition selected (options : list string) (choice : nat) : option string :=
  match nth_error options choice with
  | Some o => Some o
  | None => head options
  end.

(** The positions of a column, in increasing order, whose entry satisfies
    a test; the revenue positions of a Category column. *)
Definition positions (test : cell -> bool) (cs : list cell) : list nat :=
  List.filter
    (fun i => match nth_error cs i with Some c => test c | None => false end)
    (seq 0 (length cs)).

Definition revenue_positions (category : list cell) : list nat :=
  positions (cell_eq_str "Pendapatan") category.

(** The entries of a column at the given positions, and the rows of a
    frame at the given positions: every column cut to those entries. *)
Definition take_rows (idx : list nat) (xs : list cell) : list cell :=
  flat_map (fun i => match nth_error xs i with Some x => [x] | None => [] end) idx.

Definition rows_at (idx : list nat) (df : DataFrame) : DataFrame :=
  map (fun '(k, s) => (k, mkSeries (s_dtype s) (take_rows idx (s_values s)))) df.

(** What a revenue block displays on a table, told from the table alone.
    For a table without Category column it is the chart error of the
    block, on the [KeyError] of the label.  Otherwise the row filter of
    the block keeps the rows at the revenue positions, which are the
    positions of the Category column that hold the revenue category; with
    no such position the result has no row and the block displays the
    missing-category error, the year columns unchecked; with one, it
    displays the chart of the revenue rows when the eight year columns are
    there, and the missing-year-columns error when one is not. *)
Definition revenue_outcome (px : figure -> option exn) (df : DataFrame)
    (no_rows no_years : string) (failed : exn -> string)
    (fig : DataFrame -> figure) (e : element) : Prop :=
  match lookup_col df "Category" with
  | None => e = ErrorBox (failed (KeyError "'Category'"))
  | Some category =>
      let idx := revenue_positions (s_values category) in
      (forall i,
         In i idx <-> nth_error (s_values category) i = Some (CStr "Pendapatan")) /\
      filter_rows df (eq_str category "Pendapatan") = rows_at idx df /\
      match idx with
      | [] => nrows (rows_at idx df) = 0 /\ e = ErrorBox no_rows
      | _ =>
          (Forall (fun year => In year (columns df)) Script.years ->
           e = chart_or_error px (fig (rows_at idx df)) failed) /\
          (~ Forall (fun year => In year (columns df)) Script.years ->
           e = ErrorBox no_years)
      end
  end.

(** The frame of a revenue chart is the table cut to its revenue rows,
    every cell of them and nothing else: the rows at the positions of the
    Category column that hold the revenue category, in their order. *)
Definition only_revenue_rows (df : DataFrame) (fig : figure) : Prop :=
  exists category,
    lookup_col df "Category" = Some category /\
    let idx := revenue_positions (s_values category) in
    (forall i,
       In i idx <-> nth_error (s_values category) i = Some (CStr "Pendapatan")) /\
    fig_data fig = rows_at idx df /\
    columns (fig_data fig) = columns df /\
    (exists kept_category,
       lookup_col (fig_data fig) "Category" = Some kept_category /\
       Forall (fun c => c = CStr "Pendapatan") (s_values kept_category)) /\
    (forall n,
       rectangular df n ->
       rectangular (fig_data fig) (length idx) /\ 0 < length idx).



(** The table the data exploration displays for a state of its selector. *)
Definition explored (choice : nat) : Script.table_id :=
  match choice with
  | 1 => Script.Growth
  | 2 => Script.Metrics
  | 3 => Script.FinalSummary
  | 4 => Script.FinancialMetrics
  | _ => Script.Combined
  end.

End Shapes.

(** ** The charts of the literal frames *)

Module Static.

Import Pandas.

Definition long_or_empty (r : result DataFrame) : DataFrame :=
  match r with Ok long => long | Raise _ => [] end.

(** The long forms of the allocation and risk frames. *)
Definition portfolio_long : DataFrame :=
  Eval vm_compute in
    long_or_empty (melt Script.portfolio_data ["Method"] None "Scenario" "Weight").

Definition risk_long : DataFrame :=
  Eval vm_compute in
    long_or_empty (melt Script.risk_components ["Scenario"] None "Risk_Type" "Risk_Level").

Definition allocation_fig : figure :=
  mkFigure "bar" portfolio_long (Some "Method") ["Weight"] (Some "Scenario")
    "Alokasi Portofolio per Metode" "".

Definition performance_fig : figure :=
  mkFigure "scatter" Script.performance_data (Some "Expected_Return")
    ["Sharpe_Ratio"] (Some "Method") "Analisis Risiko-Hasil"
    "size=[20, 20, 20, 20]".

Definition decomposition_fig : figure :=
  mkFigure "bar" risk_long (Some "Scenario") ["Risk_Level"] (Some "Risk_Type")
    "Dekomposisi Risiko per Skenario" "".

End Static.

(** * Properties *)

(** ** Python strings *)

Module PyStrFacts.

Import PyStr.

Lemma append_nil (b : string) : "" +:+ b = b.
Proof. reflexivity. Qed.

Lemma append_cons (c : ascii) (a b : string) :
  String c a +:+ b = String c (a +:+ b).
Proof. reflexivity. Qed.

Lemma prefix_app (a b : string) : String.prefix a (a +:+ b) = true.
Proof.
  induction a as [|c a IH].
  - rewrite append_nil. now destruct b.
  - rewrite append_cons. simpl.
    destruct (Ascii.ascii_dec c c) as [_|n]; [exact IH | now elim n].
Qed.

Lemma prefix_split (a s : string) :
  String.prefix a s = true -> exists post, s = a +:+ post.
Proof.
  revert s; induction a as [|c a IH]; intros s H.
  - exists s; reflexivity.
  - destruct s as [|d s]; simpl in H; [discriminate|].
    destruct (Ascii.ascii_dec c d) as [->|]; [|discriminate].
    destruct (IH _ H) as [post ->]. exists post; reflexivity.
Qed.

(** [contains] is exactly the substring relation. *)
Lemma contains_spec (needle hay : string) :
  contains needle hay = true <->
  exists pre post, hay = pre +:+ needle +:+ post.
Proof.
  split.
  - induction hay as [|c hay IH]; unfold contains; fold contains; intros H.
    + rewrite orb_false_r in H. destruct (prefix_split _ _ H) as [post ->].
      exists "", post; reflexivity.
    + apply orb_true_iff in H as [H|H].
      * destruct (prefix_split _ _ H) as [post ->]. exists "", post; reflexivity.
      * destruct (IH H) as (pre & post & ->).
        exists (String c pre), post; reflexivity.
  - intros (pre & post & ->).
    induction pre as [|c pre IH].
    + rewrite append_nil.
      destruct (needle +:+ post) eqn:E; unfold contains; fold contains;
        rewrite <- E, prefix_app; reflexivity.
    + rewrite append_cons. simpl. rewrite IH. apply orb_true_r.
Qed.

Lemma contains_intro (pre needle post : string) :
  contains needle (pre +:+ needle +:+ post) = true.
Proof. apply contains_spec; eauto. Qed.

End PyStrFacts.

(** ** The loader *)

Module LoaderFacts.

Import Loader PyStr PyStrFacts.

(** What [load_data] returns, by the first read that fails. *)
Lemma load_data_cases (fs : filesystem) :
  match first_failing fs with
  | None =>
      exists c g m s f fc,
        load_data fs = ((Some c, Some g, Some m, Some s, Some f, Some fc), [])
  | Some p =>
      match fs p with
      | Absent => load_data fs = (none6, [ErrorBox (not_found_msg p)])
      | Unparseable reason =>
          load_data fs = (none6, [ErrorBox (load_failed_msg (OtherError reason))])
      | Parses _ => False
      end
  end.
Proof.
  unfold first_failing, paths, load_data, load_try, read_csv, fails.
  cbn [List.find bind].
  repeat match goal with
  | |- context [fs ?p] =>
      let E := fresh "E" in
      destruct (fs p) eqn:E; cbn [bind]; try rewrite E; try reflexivity
  end.
  repeat eexists.
Qed.

(** C9.  The return value of [load_data] is either six tables or six
    times [None], never a mixture; so the guard of the caller, which looks
    at the first component only, halts the run exactly when no table is
    usable, and a run that passes it has all six tables. *)
Theorem load_all_or_nothing (fs : filesystem) :
  let data := fst (load_data fs) in
  ((exists c g m s f fc,
      data = (Some c, Some g, Some m, Some s, Some f, Some fc)) \/
   data = none6) /\
  (first data = None <-> data = none6) /\
  (first data = None <-> Script.unpack data = None) /\
  (forall parse_number px to_csv page w,
     match Script.run parse_number px to_csv fs page w with
     | Script.Stopped _ => data = none6
     | Script.Finished _ _ | Script.Aborted _ _ => Script.unpack data <> None
     | Script.Unusable _ => False
     end).
Proof.
  pose proof (load_data_cases fs) as H.
  unfold Script.run.
  destruct (first_failing fs) as [p|].
  - assert (E : load_data fs = (none6, snd (load_data fs))).
    { destruct (fs p); [rewrite H; reflexivity .. | contradiction]. }
    rewrite E. cbn. repeat split; auto.
  - destruct H as (c & g & m & s & f & fc & ->). cbn.
    repeat split; try discriminate.
    + left. repeat eexists.
    + intros. destruct (Script.render _ _ _ _ _ _) as [[[|] ?] ?]; discriminate.
Qed.

(** C1, as the code has it.  When a read fails, [load_data] displays one
    error for the first file that failed and returns six times [None], and
    the run halts at the guard with nothing else displayed.  The error
    names the file when the file is missing; when the file cannot be
    parsed the error carries the reason the parser gave. *)
Theorem load_failure_halts (fs : filesystem) (p : string) :
  first_failing fs = Some p ->
  exists msg,
    load_data fs = (none6, [ErrorBox msg]) /\
    (fs p = Absent -> msg = not_found_msg p /\ contains p msg = true) /\
    (forall reason,
       fs p = Unparseable reason ->
       msg = load_failed_msg (OtherError reason) /\ contains reason msg = true) /\
    (forall parse_number px to_csv page w,
       Script.run parse_number px to_csv fs page w =
       Script.Stopped (Script.sidebar ++ [ErrorBox msg])).
Proof.
  intros Hp. pose proof (load_data_cases fs) as H. rewrite Hp in H.
  assert (Hrun : forall msg, load_data fs = (none6, [ErrorBox msg]) ->
            forall parse_number px to_csv page w,
              Script.run parse_number px to_csv fs page w =
              Script.Stopped (Script.sidebar ++ [ErrorBox msg])).
  { intros msg E **. unfold Script.run. rewrite E. reflexivity. }
  destruct (fs p) as [|reason|df] eqn:E; [| |contradiction].
  - exists (not_found_msg p). split; [exact H|].
    split; [intros _; split; [reflexivity | apply contains_intro]|].
    split; [intros r Hr; discriminate | apply Hrun; exact H].
  - exists (load_failed_msg (OtherError reason)). split; [exact H|].
    split; [intros Hr; discriminate|].
    split; [|apply Hrun; exact H].
    intros r [= <-]. split; [reflexivity | apply contains_intro].
Qed.

Lemma load_failure_halts_witness :
  exists msg,
    load_data Samples.fs_missing = (none6, [ErrorBox msg]) /\
    contains "xerpihan_combined_data.csv" msg = true.
Proof.
  destruct (load_failure_halts Samples.fs_missing "xerpihan_combined_data.csv"
              eq_refl) as (msg & E & Habs & _).
  exists msg. split; [exact E | apply Habs; reflexivity].
Defined.

(** C1 as stated fails: an empty metrics file is a failed read, and the
    one error displayed names none of the six files. *)
Lemma load_parse_error_names_no_file :
  first_failing Samples.fs_empty_metrics = Some "xerpihan_comprehensive_metrics.csv" /\
  exists msg,
    load_data Samples.fs_empty_metrics = (none6, [ErrorBox msg]) /\
    Forall (fun p => contains p msg = false) paths.
Proof.
  split; [reflexivity|]. eexists. split; [reflexivity|].
  repeat constructor.
Qed.

End LoaderFacts.

(** ** pandas operations *)

Module PandasFacts.

Import Pandas.

Lemma lookup_setitem_same (df : DataFrame) (k : string) (s : Series) :
  lookup_col (setitem df k s) k = Some s.
Proof.
  induction df as [|[k0 v] df IH]; simpl.
  - now rewrite String.eqb_refl.
  - destruct (String.eqb k0 k) eqn:E; simpl; rewrite E; auto.
Qed.

Lemma lookup_setitem_other (df : DataFrame) (k k' : string) (s : Series) :
  k <> k' -> lookup_col (setitem df k s) k' = lookup_col df k'.
Proof.
  intros Hne. induction df as [|[k0 v] df IH]; simpl.
  - apply String.eqb_neq in Hne. now rewrite Hne.
  - destruct (String.eqb k0 k) eqn:E; simpl.
    + apply String.eqb_eq in E; subst k0.
      apply String.eqb_neq in Hne. now rewrite Hne.
    + destruct (String.eqb k0 k'); auto.
Qed.

Lemma columns_setitem (df : DataFrame) (k : string) (s : Series) :
  lookup_col df k <> None -> columns (setitem df k s) = columns df.
Proof.
  unfold columns. induction df as [|[k0 v] df IH]; simpl; intros H.
  - congruence.
  - destruct (String.eqb k0 k) eqn:E; simpl; [reflexivity|].
    f_equal. apply IH, H.
Qed.

Lemma setitem_id (df : DataFrame) (k : string) (s : Series) :
  lookup_col df k = Some s -> setitem df k s = df.
Proof.
  induction df as [|[k0 v] df IH]; simpl; intros H; [discriminate|].
  destruct (String.eqb k0 k) eqn:E.
  - congruence.
  - f_equal. apply IH, H.
Qed.


Section ToNumericFacts.

Variable parse_number : string -> option Q.

Lemma coerce_numeric_cell (c : cell) :
  numeric_cell c = true -> coerce_cell parse_number c = c.
Proof. destruct c; simpl; congruence. Qed.

(** Coercing a float column changes nothing. *)
Lemma to_numeric_id (s : Series) :
  s_dtype s = Float64 -> wf_series s = true -> to_numeric parse_number s = s.
Proof.
  destruct s as [d vs]; unfold wf_series, to_numeric; simpl.
  intros -> H. f_equal.
  induction vs as [|c vs IH]; simpl in *; [reflexivity|].
  apply andb_true_iff in H as [Hc Hvs].
  now rewrite coerce_numeric_cell, IH.
Qed.

Lemma to_numeric_lookup (s : Series) (i : nat) :
  s_values (to_numeric parse_number s) !! i =
  coerce_cell parse_number <$> s_values s !! i.
Proof. unfold to_numeric; simpl. apply list_lookup_fmap. Qed.

Lemma to_numeric_length (s : Series) :
  length (s_values (to_numeric parse_number s)) = length (s_values s).
Proof. unfold to_numeric; simpl. apply length_map. Qed.

Lemma coerce_cell_not_str (c : cell) : numeric_cell (coerce_cell parse_number c) = true.
Proof. destruct c as [s|q|]; simpl; auto. destruct (parse_number s); auto. Qed.

Lemma to_numeric_coerced (s : Series) :
  Props.coerced parse_number s (to_numeric parse_number s).
Proof.
  unfold Props.coerced. split; [apply to_numeric_length|].
  split; [|split; [|split]].
  - intros i tok H Hp. rewrite to_numeric_lookup, H. simpl. now rewrite Hp.
  - intros i tok q H Hp. rewrite to_numeric_lookup, H. simpl. now rewrite Hp.
  - intros i q H. rewrite to_numeric_lookup, H. reflexivity.
  - intros i. rewrite to_numeric_lookup.
    destruct (s_values s !! i) as [[tok|q|]|] eqn:E; simpl.
    + destruct (parse_number tok) eqn:Hp; split.
      * discriminate.
      * intros [?|(t & [= <-] & ?)]; congruence.
      * intros _. right. eauto.
      * reflexivity.
    + split; [discriminate|]. intros [?|(t & ? & _)]; discriminate.
    + split; auto.
    + split; [discriminate|]. intros [?|(t & ? & _)]; discriminate.
Qed.

End ToNumericFacts.

Lemma existsb_eqb_In (x : string) (l : list string) :
  existsb (String.eqb x) l = true <-> In x l.
Proof.
  rewrite existsb_exists. split.
  - intros (y & Hy & E). apply String.eqb_eq in E. now subst.
  - intros H. exists x. split; [exact H | apply String.eqb_refl].
Qed.



End PandasFacts.

(** ** The pages *)

Module ScriptFacts.

Import Pandas PandasFacts Script Props.

Lemma bind_ok {A B} (m : M A) (k : A -> M B) ts a ts1 shown1 :
  m ts = (Ok a, ts1, shown1) ->
  bind m k ts =
  (let '(r, ts2, shown2) := k a ts1 in (r, ts2, shown1 ++ shown2)).
Proof. unfold bind. intros ->. reflexivity. Qed.

Lemma bind_raise {A B} (m : M A) (k : A -> M B) ts e ts1 shown1 :
  m ts = (Raise e, ts1, shown1) -> bind m k ts = (Raise e, ts1, shown1).
Proof. unfold bind. intros ->. reflexivity. Qed.

Section PageFacts.

Variable parse_number : string -> option Q.
Variable px : figure -> option exn.
Variable to_csv : DataFrame -> string.

Lemma coerce_column_ok (key : string) (ts : TableSet) (s : Series) :
  lookup_col (metrics ts) key = Some s ->
  coerce_column parse_number key ts =
  (Ok tt, set ts Metrics (setitem (metrics ts) key (to_numeric parse_number s)), []).
Proof.
  intros H. unfold coerce_column, bind, read, lift, getitem. cbn. rewrite H.
  reflexivity.
Qed.

Lemma coerce_column_fail (key : string) (ts : TableSet) :
  lookup_col (metrics ts) key = None ->
  coerce_column parse_number key ts = (Raise (KeyError (repr key)), ts, []).
Proof.
  intros H. unfold coerce_column, bind, read, lift, getitem. cbn. rewrite H.
  reflexivity.
Qed.

Lemma metric_mean_ok (label key : string) (ts : TableSet) (s : Series) :
  lookup_col (metrics ts) key = Some s ->
  metric_mean label key ts =
  (Ok tt, ts, [Metric label (Format.format_2f (mean s) +:+ "%")]).
Proof.
  intros H. unfold metric_mean, bind, read, lift, getitem. cbn. rewrite H.
  reflexivity.
Qed.

Lemma lift_any_null (df : DataFrame) (ts : TableSet) (n1 n2 n3 : Series) :
  lookup_col df "Revenue_CAGR" = Some n1 ->
  lookup_col df "Avg_EBITDA_Margin" = Some n2 ->
  lookup_col df "Cost_to_Revenue" = Some n3 ->
  lift (any_null df kpi_columns) ts =
  (Ok (existsb isnull (s_values n1) ||
       (existsb isnull (s_values n2) || (existsb isnull (s_values n3) || false))),
   ts, []).
Proof.
  intros F1 F2 F3. unfold any_null, kpi_columns, getitem.
  rewrite F1, F2, F3. reflexivity.
Qed.

Lemma when_run (b : bool) (e : element) (ts : TableSet) :
  when b (show e) ts = (Ok tt, ts, if b then [e] else []).
Proof. destruct b; reflexivity. Qed.

(** The KPI block when the three columns exist: the columns are coerced in
    place and the three tiles are displayed, after a warning when a
    coerced column has a missing value. *)
Lemma overview_kpi_ok (ts : TableSet) (s1 s2 s3 : Series) :
  lookup_col (metrics ts) "Revenue_CAGR" = Some s1 ->
  lookup_col (metrics ts) "Avg_EBITDA_Margin" = Some s2 ->
  lookup_col (metrics ts) "Cost_to_Revenue" = Some s3 ->
  let n1 := to_numeric parse_number s1 in
  let n2 := to_numeric parse_number s2 in
  let n3 := to_numeric parse_number s3 in
  overview_kpi parse_number ts =
  (Ok tt,
   set ts Metrics
     (setitem (setitem (setitem (metrics ts) "Revenue_CAGR" n1)
                 "Avg_EBITDA_Margin" n2) "Cost_to_Revenue" n3),
   (if existsb isnull (s_values n1) ||
       (existsb isnull (s_values n2) || (existsb isnull (s_values n3) || false))
    then [nan_warning] else []) ++
   [Metric "Rata-rata Revenue CAGR" (Format.format_2f (mean n1) +:+ "%");
    Metric "Rata-rata EBITDA Margin" (Format.format_2f (mean n2) +:+ "%");
    Metric "Rata-rata Efisiensi Biaya" (Format.format_2f (mean n3) +:+ "%")]).
Proof.
  intros H1 H2 H3 n1 n2 n3.
  set (df1 := setitem (metrics ts) "Revenue_CAGR" n1).
  set (df2 := setitem df1 "Avg_EBITDA_Margin" n2).
  set (df3 := setitem df2 "Cost_to_Revenue" n3).
  assert (L2 : lookup_col df1 "Avg_EBITDA_Margin" = Some s2).
  { unfold df1. rewrite lookup_setitem_other; [exact H2 | discriminate]. }
  assert (L3 : lookup_col df2 "Cost_to_Revenue" = Some s3).
  { unfold df2, df1. rewrite !lookup_setitem_other; [exact H3 | discriminate ..]. }
  assert (F3 : lookup_col df3 "Cost_to_Revenue" = Some n3).
  { apply lookup_setitem_same. }
  assert (F2 : lookup_col df3 "Avg_EBITDA_Margin" = Some n2).
  { unfold df3. rewrite lookup_setitem_other; [apply lookup_setitem_same | discriminate]. }
  assert (F1 : lookup_col df3 "Revenue_CAGR" = Some n1).
  { unfold df3, df2. rewrite !lookup_setitem_other; [apply lookup_setitem_same | discriminate ..]. }
  unfold overview_kpi, try_except.
  erewrite bind_ok by (apply coerce_column_ok; exact H1). cbv beta iota.
  erewrite bind_ok by (apply coerce_column_ok; exact L2). cbv beta iota.
  erewrite bind_ok by (apply coerce_column_ok; exact L3). cbv beta iota.
  erewrite bind_ok by reflexivity. cbv beta iota.
  erewrite bind_ok by (apply (lift_any_null _ _ _ _ _ F1 F2 F3)). cbv beta iota.
  erewrite bind_ok by apply when_run. cbv beta iota.
  erewrite bind_ok by (apply metric_mean_ok; exact F1). cbv beta iota.
  erewrite bind_ok by (apply metric_mean_ok; exact F2). cbv beta iota.
  erewrite metric_mean_ok by exact F3.
  reflexivity.
Qed.

(** The KPI block when a column is absent: the columns before it are
    coerced, one error is displayed and no tile. *)
Lemma overview_kpi_missing (ts : TableSet) :
  match lookup_col (metrics ts) "Revenue_CAGR" with
  | None => overview_kpi parse_number ts = (Ok tt, ts, [kpi_error "Revenue_CAGR"])
  | Some s1 =>
      let df1 := setitem (metrics ts) "Revenue_CAGR" (to_numeric parse_number s1) in
      match lookup_col (metrics ts) "Avg_EBITDA_Margin" with
      | None =>
          overview_kpi parse_number ts =
          (Ok tt, set ts Metrics df1, [kpi_error "Avg_EBITDA_Margin"])
      | Some s2 =>
          let df2 := setitem df1 "Avg_EBITDA_Margin" (to_numeric parse_number s2) in
          match lookup_col (metrics ts) "Cost_to_Revenue" with
          | None =>
              overview_kpi parse_number ts =
              (Ok tt, set ts Metrics df2, [kpi_error "Cost_to_Revenue"])
          | Some _ => True
          end
      end
  end.
Proof.
  destruct (lookup_col (metrics ts) "Revenue_CAGR") as [s1|] eqn:H1.
  2:{ unfold overview_kpi, try_except.
      erewrite bind_raise by (apply coerce_column_fail; exact H1). reflexivity. }
  destruct (lookup_col (metrics ts) "Avg_EBITDA_Margin") as [s2|] eqn:H2.
  2:{ cbv zeta. unfold overview_kpi, try_except.
      erewrite bind_ok by (apply coerce_column_ok; exact H1). cbv beta iota.
      erewrite bind_raise
        by (apply coerce_column_fail; cbn;
            rewrite lookup_setitem_other; [exact H2 | discriminate]).
      reflexivity. }
  destruct (lookup_col (metrics ts) "Cost_to_Revenue") as [s3|] eqn:H3; [exact I|].
  cbv zeta. unfold overview_kpi, try_except.
  erewrite bind_ok by (apply coerce_column_ok; exact H1). cbv beta iota.
  erewrite bind_ok.
  2:{ apply coerce_column_ok. cbn.
      rewrite lookup_setitem_other; [exact H2 | discriminate]. }
  cbv beta iota.
  erewrite bind_raise
    by (apply coerce_column_fail; cbn;
        rewrite !lookup_setitem_other; [exact H3 | discriminate ..]).
  reflexivity.
Qed.

End PageFacts.

(** *** The revenue filters *)

Lemma has_all_years_spec (df : DataFrame) :
  has_all_years df = true <-> Forall (fun year => In year (columns df)) years.
Proof.
  unfold has_all_years. rewrite forallb_forall, List.Forall_forall.
  split; intros H y Hy; apply existsb_eqb_In, H, Hy.
Qed.

Lemma overview_revenue_run (px : figure -> option exn) (ts : TableSet) :
  overview_revenue px ts =
  (Ok tt, ts,
   [trend_shown px (combined_data ts) no_revenue_msg no_years_msg
      revenue_failed_msg revenue_fig]).
Proof.
  unfold overview_revenue, trend_shown, try_except, bind, read, lift, getitem,
    plotly_chart.
  cbn [get]. destruct (lookup_col (combined_data ts) "Category") as [cat|];
    [|reflexivity].
  cbn [ret]. destruct (empty _); [reflexivity|].
  destruct (has_all_years _); cbn [negb]; [|reflexivity].
  destruct (px _); reflexivity.
Qed.

Lemma forecasting_revenue_run (px : figure -> option exn) (ts : TableSet) :
  forecasting_revenue px ts =
  (Ok tt, ts,
   [trend_shown px (forecast_combined ts) no_forecast_msg no_forecast_years_msg
      forecast_failed_msg forecast_fig]).
Proof.
  unfold forecasting_revenue, trend_shown, try_except, bind, read, lift, getitem,
    plotly_chart.
  cbn [get]. destruct (lookup_col (forecast_combined ts) "Category") as [cat|];
    [|reflexivity].
  cbn [ret]. destruct (empty _); [reflexivity|].
  destruct (has_all_years _); cbn [negb]; [|reflexivity].
  destruct (px _); reflexivity.
Qed.

Example revenue_no_row :
  overview_revenue Samples.px_accepts
    (Samples.tables_with_combined Samples.combined_costs_only) =
  (Ok tt, Samples.tables_with_combined Samples.combined_costs_only,
   [ErrorBox "Error: Tidak ada data pendapatan yang ditemukan."]).
Proof. reflexivity. Qed.

Example revenue_year_absent :
  overview_revenue Samples.px_accepts
    (Samples.tables_with_combined Samples.combined_one_year) =
  (Ok tt, Samples.tables_with_combined Samples.combined_one_year,
   [ErrorBox "Error: Beberapa kolom tahun tidak ada di data pendapatan."]).
Proof. reflexivity. Qed.

Example revenue_no_category_column :
  overview_revenue Samples.px_accepts
    (Samples.tables_with_combined Samples.scenario_table) =
  (Ok tt, Samples.tables_with_combined Samples.scenario_table,
   [ErrorBox "Error saat membuat visualisasi tren pendapatan: 'Category'"]).
Proof. reflexivity. Qed.

Example revenue_chart :
  exists fig,
    overview_revenue Samples.px_accepts
      (Samples.tables_with_combined Samples.combined_all_years) =
    (Ok tt, Samples.tables_with_combined Samples.combined_all_years,
     [PlotlyChart fig]) /\
    lookup_col (fig_data fig) "Scenario" = Some (strs ["Optimistic"]) /\
    fig_y fig = ["2024"; "2025"; "2026"; "2027"; "2028"; "2029"; "2030"; "2031"].
Proof. eexists. split; [reflexivity|]. split; reflexivity. Qed.

(** *** Growth columns *)

Lemma growth_cols_of_In (df : DataFrame) (col : string) :
  In col (growth_cols_of df) <->
  In col (columns df) /\ exists pre post, col = pre +:+ "Growth" +:+ post.
Proof.
  unfold growth_cols_of. rewrite List.filter_In, PyStrFacts.contains_spec. tauto.
Qed.

Lemma filter_sublist_of {A} (f : A -> bool) (l : list A) :
  sublist (List.filter f l) l.
Proof.
  induction l as [|x l IH]; simpl; [constructor|].
  destruct (f x); now constructor.
Qed.

Lemma forecasting_growth_run (px : figure -> option exn) (ts : TableSet) :
  forecasting_growth px ts = (Ok tt, ts, [growth_shown px (growth_data ts)]).
Proof.
  unfold forecasting_growth, growth_shown, try_except, bind, read, lift,
    plotly_chart.
  cbn [get]. destruct (growth_cols_of (growth_data ts)) as [|c cs]; [reflexivity|].
  destruct (melt _ _ _ _ _) as [long|e]; [|reflexivity].
  cbn [ret]. destruct (px _); reflexivity.
Qed.

(** C6.  The growth columns discovered on a growth table are exactly its
    columns whose name contains [Growth], in the order of the table; on
    the columns Scenario, Revenue_Growth, EBITDA_Growth, Notes they are
    Revenue_Growth and EBITDA_Growth; and when no column matches the block
    displays the missing-column error and no chart. *)
Theorem growth_columns_discovered (px : figure -> option exn) (ts : TableSet) :
  let df := growth_data ts in
  (forall col,
     In col (growth_cols_of df) <->
     In col (columns df) /\ exists pre post, col = pre +:+ "Growth" +:+ post) /\
  sublist (growth_cols_of df) (columns df) /\
  (forall s1 s2 s3 s4,
     growth_cols_of
       [ ("Scenario", s1); ("Revenue_Growth", s2);
         ("EBITDA_Growth", s3); ("Notes", s4) ] =
     ["Revenue_Growth"; "EBITDA_Growth"]) /\
  exists e,
    forecasting_growth px ts = (Ok tt, ts, [e]) /\
    (growth_cols_of df = [] -> e = ErrorBox no_growth_cols_msg) /\
    (forall fig,
       e = PlotlyChart fig ->
       growth_cols_of df <> [] /\
       exists long,
         melt df ["Scenario"] (Some (growth_cols_of df)) "variable" "value" =
         Ok long /\
         fig = growth_fig long).
Proof.
  intros df. split; [apply growth_cols_of_In|].
  split; [apply filter_sublist_of|].
  split; [reflexivity|].
  rewrite forecasting_growth_run. eexists. split; [reflexivity|].
  unfold growth_shown. fold df. split.
  - intros ->. reflexivity.
  - intros fig Hf. destruct (growth_cols_of df) as [|c cs]; [discriminate|].
    split; [discriminate|].
    destruct (melt _ _ _ _ _) as [long|e]; [|discriminate].
    exists long. split; [reflexivity|].
    destruct (px _); [discriminate|]. now injection Hf as <-.
Qed.

Example growth_chart :
  exists fig,
    forecasting_growth Samples.px_accepts
      (mkTables Samples.scenario_table Samples.growth_four_columns
         Samples.scenario_table Samples.scenario_table Samples.scenario_table
         Samples.scenario_table) =
    (Ok tt,
     mkTables Samples.scenario_table Samples.growth_four_columns
       Samples.scenario_table Samples.scenario_table Samples.scenario_table
       Samples.scenario_table,
     [PlotlyChart fig]) /\
    fig_data fig =
    [ ("Scenario", strs ["Optimistic"; "Moderate"; "Optimistic"; "Moderate"]);
      ("variable",
       strs ["Revenue_Growth"; "Revenue_Growth"; "EBITDA_Growth"; "EBITDA_Growth"]);
      ("value", floats [num 5 100; num 3 100; num 4 100; num 2 100]) ].
Proof. eexists. split; reflexivity. Qed.

Example growth_no_column :
  forecasting_growth Samples.px_accepts
    (Samples.tables_with_metrics Samples.scenario_table) =
  (Ok tt, Samples.tables_with_metrics Samples.scenario_table,
   [ErrorBox "Error: Tidak ada kolom pertumbuhan yang ditemukan di growth_data."]).
Proof. reflexivity. Qed.

(** *** The data exploration selector *)

Lemma datasets_lookup (name : string) (i : table_id) :
  datasets !! name = Some i <->
  In (name, i)
    [ ("Combined Data", Combined); ("Growth Data", Growth); ("Metrics", Metrics);
      ("Final Summary", FinalSummary); ("Financial Metrics", FinancialMetrics) ].
Proof.
  unfold datasets. rewrite !lookup_insert_Some, lookup_empty. simpl. split.
  - intros H.
    repeat match goal with
    | H : _ \/ _ |- _ => destruct H as [[<- <-]|[? H]]
    end; auto 10. discriminate.
  - intros H.
    repeat match goal with
    | H : _ \/ _ |- _ => destruct H as [[= <- <-]|H]
    end; try contradiction; intuition (auto; discriminate).
Qed.

Lemma selectbox_run (label : string) (options : list string) (choice : nat)
    (ts : TableSet) :
  selectbox label options choice ts =
  (Ok (match nth_error options choice with
       | Some o => Some o
       | None => head options
       end), ts, [Selectbox label options]).
Proof. reflexivity. Qed.

Lemma selectbox_choice (options : list string) (choice : nat) (o : string) :
  match nth_error options choice with
  | Some o => Some o
  | None => head options
  end = Some o -> In o options.
Proof.
  destruct (nth_error options choice) eqn:E.
  - intros [= <-]. eapply nth_error_In, E.
  - destruct options; simpl; [discriminate|]. intros [= <-]. now left.
Qed.

(** C10.  Each of the five names the selector offers is a key of the
    dictionary, none of them stands for the forecast table, and for every
    state of the selector the exploration displays one of the five tables
    without raising. *)
Theorem exploration_lookup_succeeds :
  Forall (fun name => exists i, datasets !! name = Some i /\ i <> Forecast)
    dataset_names /\
  (forall name, datasets !! name <> Some Forecast) /\
  (forall w ts,
     exists name i,
       In name dataset_names /\ datasets !! name = Some i /\ i <> Forecast /\
       overview_explore w ts =
       (Ok tt, ts,
        [ Subheader "Eksplorasi Data";
          Selectbox "Pilih dataset untuk dieksplorasi" dataset_names;
          DataFrameView (get ts i) ])).
Proof.
  assert (F : Forall (fun name => exists i, datasets !! name = Some i /\ i <> Forecast)
                dataset_names).
  { unfold dataset_names.
    repeat constructor; eexists; (split; [apply datasets_lookup; simpl; eauto 10|]);
      discriminate. }
  split; [exact F|]. split.
  - intros name H. apply datasets_lookup in H. simpl in H.
    intuition discriminate.
  - intros w ts.
    pose (picked := match nth_error dataset_names (dataset_choice w) with
                    | Some o => Some o
                    | None => head dataset_names
                    end).
    assert (exists name, picked = Some name) as [name Hname].
    { unfold picked. destruct (nth_error _ _); eauto. }
    pose proof (selectbox_choice _ _ _ Hname) as Hin.
    rewrite List.Forall_forall in F. destruct (F name Hin) as (i & Hi & Hne).
    exists name, i. split; [exact Hin|]. split; [exact Hi|]. split; [exact Hne|].
    unfold overview_explore.
    erewrite bind_ok by reflexivity. cbv beta iota.
    erewrite bind_ok by apply selectbox_run. cbv beta iota.
    fold picked. rewrite Hname. unfold datasets_getitem. rewrite Hi.
    reflexivity.
Qed.

(** *** Blocks *)

Lemma quiet_guarded (m : M unit) : quiet m -> guarded m.
Proof. intros H ts. destruct (H ts) as (shown & E & F). eauto. Qed.

Lemma trend_shown_filled px df no_rows no_years failed fig :
  slot_filled [trend_shown px df no_rows no_years failed fig] = true.
Proof.
  unfold trend_shown. destruct (lookup_col df "Category"); [|reflexivity].
  destruct (empty _); [reflexivity|].
  destruct (has_all_years _); [|reflexivity]. destruct (px _); reflexivity.
Qed.

Section Blocks.

Variable parse_number : string -> option Q.
Variable px : figure -> option exn.
Variable to_csv : DataFrame -> string.

Lemma overview_revenue_quiet : quiet (overview_revenue px).
Proof.
  intros ts. rewrite overview_revenue_run. eexists. split; [reflexivity|].
  apply trend_shown_filled.
Qed.

Lemma forecasting_revenue_quiet : quiet (forecasting_revenue px).
Proof.
  intros ts. rewrite forecasting_revenue_run. eexists. split; [reflexivity|].
  apply trend_shown_filled.
Qed.

Lemma forecasting_growth_quiet : quiet (forecasting_growth px).
Proof.
  intros ts. rewrite forecasting_growth_run. eexists. split; [reflexivity|].
  unfold growth_shown. destruct (growth_cols_of _); [reflexivity|].
  destruct (melt _ _ _ _ _); [|reflexivity]. destruct (px _); reflexivity.
Qed.

Lemma overview_download_quiet : quiet (overview_download to_csv).
Proof. intros ts. eexists. split; reflexivity. Qed.

Lemma overview_explore_run (w : widgets) (ts : TableSet) :
  exists name i,
    In name dataset_names /\ datasets !! name = Some i /\
    overview_explore w ts =
    (Ok tt, ts,
     [ Subheader "Eksplorasi Data";
       Selectbox "Pilih dataset untuk dieksplorasi" dataset_names;
       DataFrameView (get ts i) ]).
Proof.
  pose (picked := match nth_error dataset_names (dataset_choice w) with
                  | Some o => Some o
                  | None => head dataset_names
                  end).
  assert (exists name, picked = Some name) as [name Hname].
  { unfold picked. destruct (nth_error _ _); eauto. }
  pose proof (selectbox_choice _ _ _ Hname) as Hin.
  assert (exists i, datasets !! name = Some i) as [i Hi].
  { unfold dataset_names in Hin. simpl in Hin.
    destruct Hin as [<-|[<-|[<-|[<-|[<-|[]]]]]]; eexists;
      apply datasets_lookup; simpl; eauto 10. }
  exists name, i. split; [exact Hin|]. split; [exact Hi|].
  unfold overview_explore.
  erewrite bind_ok by reflexivity. cbv beta iota.
  erewrite bind_ok by apply selectbox_run. cbv beta iota.
  fold picked. rewrite Hname. unfold datasets_getitem. rewrite Hi.
  reflexivity.
Qed.

Lemma overview_explore_quiet (w : widgets) : quiet (overview_explore w).
Proof.
  intros ts. destruct (overview_explore_run w ts) as (name & i & _ & _ & E).
  rewrite E. eexists. split; reflexivity.
Qed.

Lemma financial_metrics_bar_quiet : quiet (financial_metrics_bar px).
Proof.
  intros ts. unfold financial_metrics_bar, try_except, bind, read, plotly_chart.
  destruct (px _); eexists; split; reflexivity.
Qed.

Lemma financial_growth_line_quiet : quiet (financial_growth_line px).
Proof.
  intros ts. unfold financial_growth_line, try_except, bind, read, plotly_chart.
  destruct (px _); eexists; split; reflexivity.
Qed.

Lemma financial_custom_quiet (w : widgets) : quiet (financial_custom px w).
Proof.
  intros ts. unfold financial_custom, try_except, bind, read, plotly_chart.
  cbn [get]. destruct (numeric_columns (financial_metrics ts)) as [|c cs].
  - eexists; split; reflexivity.
  - rewrite !selectbox_run. destruct (px _); eexists; split; reflexivity.
Qed.

Lemma risk_metrics_bar_quiet : quiet (risk_metrics_bar px).
Proof.
  intros ts. unfold risk_metrics_bar, try_except, bind, read, lift, getitem,
    plotly_chart.
  cbn [get].
  destruct (lookup_col (metrics ts) "Scenario"); [|eexists; split; reflexivity].
  cbn [ret].
  destruct (lookup_col (metrics ts) "Revenue_Volatility");
    [|eexists; split; reflexivity].
  cbn [ret].
  destruct (lookup_col (metrics ts) "Margin_Volatility");
    [|eexists; split; reflexivity].
  cbn [ret].
  destruct (px _) as [[f|k|m]|]; eexists; split; reflexivity.
Qed.

Lemma risk_decomposition_quiet : quiet (risk_decomposition px).
Proof.
  intros ts. unfold risk_decomposition, try_except, bind, lift, plotly_chart.
  destruct (melt _ _ _ _ _); [|eexists; split; reflexivity].
  cbn [ret]. destruct (px _); eexists; split; reflexivity.
Qed.

Lemma portfolio_allocation_quiet : quiet (portfolio_allocation px).
Proof.
  intros ts. unfold portfolio_allocation, try_except, bind, lift, plotly_chart.
  destruct (melt _ _ _ _ _); [|eexists; split; reflexivity].
  cbn [ret]. destruct (px _); eexists; split; reflexivity.
Qed.

Lemma portfolio_performance_quiet : quiet (portfolio_performance px).
Proof.
  intros ts. unfold portfolio_performance, try_except, plotly_chart.
  destruct (px _); eexists; split; reflexivity.
Qed.

Lemma set_metrics_id (ts : TableSet) : set ts Metrics (metrics ts) = ts.
Proof. destruct ts; reflexivity. Qed.

(** The KPI block raises nothing, fills its slot, and leaves the metrics
    table with its KPI columns coerced. *)
Lemma overview_kpi_run (ts : TableSet) :
  exists shown,
    overview_kpi parse_number ts =
    (Ok tt, set ts Metrics (kpi_store parse_number (metrics ts)), shown) /\
    slot_filled shown = true.
Proof.
  pose proof (overview_kpi_missing parse_number ts) as Hm.
  unfold kpi_store.
  destruct (lookup_col (metrics ts) "Revenue_CAGR") as [s1|] eqn:H1.
  2:{ rewrite Hm, set_metrics_id. eexists; split; reflexivity. }
  destruct (lookup_col (metrics ts) "Avg_EBITDA_Margin") as [s2|] eqn:H2.
  2:{ rewrite Hm. eexists; split; reflexivity. }
  destruct (lookup_col (metrics ts) "Cost_to_Revenue") as [s3|] eqn:H3.
  2:{ rewrite Hm. eexists; split; reflexivity. }
  rewrite (overview_kpi_ok parse_number ts s1 s2 s3 H1 H2 H3).
  eexists. split; [reflexivity|].
  destruct (_ || _); reflexivity.
Qed.

Lemma overview_kpi_guarded : guarded (overview_kpi parse_number).
Proof.
  intros ts. destruct (overview_kpi_run ts) as (shown & E & F). eauto.
Qed.

End Blocks.

(** *** Pages *)

Lemma bind_ext {A B} (m : M A) (k1 k2 : A -> M B) (ts : TableSet) :
  (forall a ts1, k1 a ts1 = k2 a ts1) -> bind m k1 ts = bind m k2 ts.
Proof.
  intros H. unfold bind. destruct (m ts) as [[[a|e] ts1] shown]; [|reflexivity].
  now rewrite H.
Qed.

Lemma bind_ret_tt (m : M unit) (ts : TableSet) :
  bind m (fun _ => ret tt) ts = m ts.
Proof.
  unfold bind. destruct (m ts) as [[[[]|e] ts1] shown]; [|reflexivity].
  cbn. now rewrite app_nil_r.
Qed.

Lemma render_plan parse_number px to_csv (page : string) (w : widgets)
    (ts : TableSet) :
  render parse_number px to_csv page w ts =
  exec (plan parse_number px to_csv page w) ts.
Proof.
  unfold render, plan.
  repeat match goal with
  | |- context [String.eqb page ?s] => destruct (String.eqb page s)
  end; try reflexivity;
  unfold overview, financial_analysis, risk_analysis, portfolio_optimization,
    forecasting; cbn [exec run_item];
  repeat (apply bind_ext; intros); symmetry; apply bind_ret_tt.
Qed.

Lemma plan_guarded parse_number px to_csv (page : string) (w : widgets) :
  Forall (fun it => guarded (run_item it)) (plan parse_number px to_csv page w).
Proof.
  assert (D : forall e, guarded (run_item (Display e))).
  { intros e ts. do 2 eexists. split; [reflexivity|]. destruct e; reflexivity. }
  unfold plan.
  repeat match goal with
  | |- context [String.eqb page ?s] => destruct (String.eqb page s)
  end;
  repeat first [ apply List.Forall_nil | apply List.Forall_cons ];
  try apply D; cbn [run_item];
  first [ apply overview_kpi_guarded | apply quiet_guarded ];
  auto using overview_revenue_quiet, overview_download_quiet,
    overview_explore_quiet, financial_metrics_bar_quiet,
    financial_growth_line_quiet, financial_custom_quiet, risk_metrics_bar_quiet,
    risk_decomposition_quiet, portfolio_allocation_quiet,
    portfolio_performance_quiet, forecasting_revenue_quiet,
    forecasting_growth_quiet.
Qed.

(** A sequence of guarded items runs to its end, and displays what its
    items display one after the other. *)
Lemma exec_guarded (items : list item) :
  Forall (fun it => guarded (run_item it)) items ->
  forall ts,
    exists ts',
      exec items ts = (Ok tt, ts', concat (trace items ts)) /\
      Forall (fun shown => slot_filled shown = true) (trace items ts) /\
      length (trace items ts) = length items.
Proof.
  induction 1 as [|it items Hit _ IH]; intros ts.
  - exists ts. repeat split; constructor.
  - destruct (Hit ts) as (ts1 & shown & E & F).
    destruct (IH ts1) as (ts' & E' & F' & L').
    exists ts'. cbn [exec trace]. unfold bind. rewrite E, E'.
    split; [reflexivity|]. split; [constructor; assumption|].
    simpl. now rewrite L'.
Qed.

Lemma exec_quiet (items : list item) (ts : TableSet) :
  Forall (fun it => quiet (run_item it)) items ->
  exists shown, exec items ts = (Ok tt, ts, shown).
Proof.
  induction 1 as [|it items Hit _ IH].
  - eexists. reflexivity.
  - destruct (Hit ts) as (s1 & E & _). destruct IH as (s2 & E').
    eexists. cbn [exec]. unfold bind. rewrite E, E'. reflexivity.
Qed.

Lemma display_quiet (e : element) : quiet (run_item (Display e)).
Proof. intros ts. eexists. split; [reflexivity|]. destruct e; reflexivity. Qed.

(** The tables a page render leaves: the Overview page leaves the metrics
    table with its KPI columns coerced; every other page leaves the six
    tables as they were. *)
Lemma render_store parse_number px to_csv (page : string) (w : widgets)
    (ts : TableSet) :
  exists shown,
    render parse_number px to_csv page w ts =
    (Ok tt,
     (if String.eqb page "Overview"
      then set ts Metrics (kpi_store parse_number (metrics ts)) else ts),
     shown).
Proof.
  rewrite render_plan. unfold plan.
  destruct (String.eqb page "Overview").
  - destruct (overview_kpi_run parse_number ts) as (s & E & _).
    cbn [exec run_item].
    erewrite bind_ok by reflexivity. cbv beta iota.
    erewrite bind_ok by reflexivity. cbv beta iota.
    erewrite bind_ok by exact E. cbv beta iota.
    match goal with
    | |- context [bind ?m ?k ?t] =>
        change (bind m k t) with
          (exec [ Display (Subheader "Tren Pendapatan per Skenario");
                  Block (overview_revenue px);
                  Block (overview_download to_csv);
                  Block (overview_explore w) ] t)
    end.
    edestruct exec_quiet as (s' & ->); [|eexists; reflexivity].
    repeat first [ apply List.Forall_nil | apply List.Forall_cons ];
      try apply display_quiet; cbn [run_item];
      auto using overview_revenue_quiet, overview_download_quiet,
        overview_explore_quiet.
  - apply exec_quiet.
    repeat match goal with
    | |- context [String.eqb page ?s] => destruct (String.eqb page s)
    end;
    repeat first [ apply List.Forall_nil | apply List.Forall_cons ];
    try apply display_quiet; cbn [run_item];
    auto using financial_metrics_bar_quiet,
      financial_growth_line_quiet, financial_custom_quiet, risk_metrics_bar_quiet,
      risk_decomposition_quiet, portfolio_allocation_quiet,
      portfolio_performance_quiet, forecasting_revenue_quiet,
      forecasting_growth_quiet.
Qed.

(** A run whose six reads succeed renders its page down to the footer. *)
Lemma run_finishes parse_number px to_csv (fs : Loader.filesystem)
    (page : string) (w : widgets) :
  Loader.first_failing fs = None ->
  exists ts shown,
    run parse_number px to_csv fs page w =
    Finished ts (sidebar ++ shown ++ footer).
Proof.
  intros Hf. pose proof (LoaderFacts.load_data_cases fs) as H. rewrite Hf in H.
  destruct H as (c & g & m & s & f & fc & E).
  unfold run. rewrite E. unfold run_loaded. cbn [Loader.first unpack].
  destruct (render_store parse_number px to_csv page w (mkTables c g m s f fc))
    as (shown & ->).
  do 2 eexists. reflexivity.
Qed.

(** *** What the KPI block does to the metrics table *)

Section KpiStore.

Variable parse_number : string -> option Q.

Lemma kpi_store_columns (df : DataFrame) :
  columns (kpi_store parse_number df) = columns df.
Proof.
  unfold kpi_store.
  destruct (lookup_col df "Revenue_CAGR") as [s1|] eqn:H1; [|reflexivity].
  assert (C1 : columns (setitem df "Revenue_CAGR" (to_numeric parse_number s1)) =
               columns df) by (apply columns_setitem; congruence).
  destruct (lookup_col df "Avg_EBITDA_Margin") as [s2|] eqn:H2; [|exact C1].
  set (df1 := setitem df "Revenue_CAGR" _) in *.
  assert (C2 : columns (setitem df1 "Avg_EBITDA_Margin" (to_numeric parse_number s2)) =
               columns df).
  { rewrite columns_setitem; [exact C1|]. unfold df1.
    rewrite lookup_setitem_other by discriminate. congruence. }
  destruct (lookup_col df "Cost_to_Revenue") as [s3|] eqn:H3; [|exact C2].
  rewrite columns_setitem; [exact C2|]. unfold df1.
  rewrite !lookup_setitem_other by discriminate. congruence.
Qed.

Lemma kpi_store_other (df : DataFrame) (key : string) :
  ~ In key kpi_columns ->
  lookup_col (kpi_store parse_number df) key = lookup_col df key.
Proof.
  unfold kpi_columns. simpl. intros Hn. unfold kpi_store.
  destruct (lookup_col df "Revenue_CAGR"); [|reflexivity].
  destruct (lookup_col df "Avg_EBITDA_Margin");
    [destruct (lookup_col df "Cost_to_Revenue")|];
    repeat (rewrite lookup_setitem_other by (intros <-; tauto)); reflexivity.
Qed.

Lemma kpi_store_kpi (df : DataFrame) (key : string) :
  In key kpi_columns ->
  lookup_col (kpi_store parse_number df) key = lookup_col df key \/
  lookup_col (kpi_store parse_number df) key =
  to_numeric parse_number <$> lookup_col df key.
Proof.
  unfold kpi_columns. simpl. unfold kpi_store.
  destruct (lookup_col df "Revenue_CAGR") as [s1|] eqn:H1; [|auto].
  destruct (lookup_col df "Avg_EBITDA_Margin") as [s2|] eqn:H2.
  - destruct (lookup_col df "Cost_to_Revenue") as [s3|] eqn:H3.
    + intros [<-|[<-|[<-|[]]]]; right.
      * rewrite !lookup_setitem_other by discriminate.
        now rewrite lookup_setitem_same, H1.
      * rewrite lookup_setitem_other by discriminate.
        now rewrite lookup_setitem_same, H2.
      * now rewrite lookup_setitem_same, H3.
    + intros [<-|[<-|[<-|[]]]].
      * right. rewrite lookup_setitem_other by discriminate.
        now rewrite lookup_setitem_same, H1.
      * right. now rewrite lookup_setitem_same, H2.
      * left. now rewrite !lookup_setitem_other by discriminate.
  - intros [<-|[<-|[<-|[]]]].
    + right. now rewrite lookup_setitem_same, H1.
    + left. now rewrite lookup_setitem_other by discriminate.
    + left. now rewrite lookup_setitem_other by discriminate.
Qed.

(** On float columns the coercion writes back what it read. *)
Lemma kpi_store_id (df : DataFrame) :
  (forall key s,
     In key kpi_columns -> lookup_col df key = Some s ->
     s_dtype s = Float64 /\ wf_series s = true) ->
  kpi_store parse_number df = df.
Proof.
  intros H. unfold kpi_store.
  assert (K : forall key s, In key kpi_columns -> lookup_col df key = Some s ->
                setitem df key (to_numeric parse_number s) = df).
  { intros key s Hin Hl. destruct (H key s Hin Hl) as [Hd Hw].
    rewrite to_numeric_id by assumption. now apply setitem_id. }
  unfold kpi_columns in K. simpl in K.
  destruct (lookup_col df "Revenue_CAGR") as [s1|] eqn:H1; [|reflexivity].
  rewrite (K _ _ (or_introl eq_refl) H1).
  destruct (lookup_col df "Avg_EBITDA_Margin") as [s2|] eqn:H2; [|reflexivity].
  rewrite (K _ _ (or_intror (or_introl eq_refl)) H2).
  destruct (lookup_col df "Cost_to_Revenue") as [s3|] eqn:H3; [|reflexivity].
  apply (K _ _ (or_intror (or_intror (or_introl eq_refl))) H3).
Qed.

Lemma kpi_store_exact (df : DataFrame) :
  let coerce := fmap (M := option) (to_numeric parse_number) in
  lookup_col (kpi_store parse_number df) "Revenue_CAGR" =
    coerce (lookup_col df "Revenue_CAGR") /\
  lookup_col (kpi_store parse_number df) "Avg_EBITDA_Margin" =
    (if Shapes.has_column df "Revenue_CAGR"
     then coerce (lookup_col df "Avg_EBITDA_Margin")
     else lookup_col df "Avg_EBITDA_Margin") /\
  lookup_col (kpi_store parse_number df) "Cost_to_Revenue" =
    (if Shapes.has_column df "Revenue_CAGR" && Shapes.has_column df "Avg_EBITDA_Margin"
     then coerce (lookup_col df "Cost_to_Revenue")
     else lookup_col df "Cost_to_Revenue").
Proof.
  unfold kpi_store, Shapes.has_column.
  destruct (lookup_col df "Revenue_CAGR") as [s1|] eqn:H1.
  2:{ rewrite H1. auto. }
  destruct (lookup_col df "Avg_EBITDA_Margin") as [s2|] eqn:H2.
  2:{ cbn. rewrite lookup_setitem_same.
      rewrite !lookup_setitem_other by discriminate.
      rewrite H2. destruct (lookup_col df "Cost_to_Revenue"); auto. }
  destruct (lookup_col df "Cost_to_Revenue") as [s3|] eqn:H3; cbn.
  - rewrite !lookup_setitem_same.
    rewrite (lookup_setitem_other _ "Cost_to_Revenue" "Avg_EBITDA_Margin")
      by discriminate.
    rewrite (lookup_setitem_other _ "Cost_to_Revenue" "Revenue_CAGR")
      by discriminate.
    rewrite (lookup_setitem_other _ "Avg_EBITDA_Margin" "Revenue_CAGR")
      by discriminate.
    rewrite !lookup_setitem_same. auto.
  - rewrite lookup_setitem_same.
    rewrite (lookup_setitem_other _ "Avg_EBITDA_Margin" "Revenue_CAGR")
      by discriminate.
    rewrite (lookup_setitem_other _ "Avg_EBITDA_Margin" "Cost_to_Revenue")
      by discriminate.
    rewrite (lookup_setitem_other _ "Revenue_CAGR" "Cost_to_Revenue")
      by discriminate.
    rewrite lookup_setitem_same, H3. auto.
Qed.

End KpiStore.

(** C2, as the code has it.  A page render raises nothing and leaves the
    combined, growth, summary, financial-metrics and forecast tables as
    they were; every page but Overview leaves the metrics table too.  The
    Overview page overwrites in place the KPI columns of the metrics table
    with their coercions, in the order Revenue_CAGR, Avg_EBITDA_Margin,
    Cost_to_Revenue and up to the first of them that is absent: a KPI
    column is coerced exactly when it and the KPI columns before it exist.
    The columns, their order and every other column are kept, and a table
    whose KPI columns are float columns is left as it was. *)
Theorem render_frame (parse_number : string -> option Q)
    (px : figure -> option exn) (to_csv : DataFrame -> string)
    (page : string) (w : widgets) (ts : TableSet) :
  exists ts' shown,
    render parse_number px to_csv page w ts = (Ok tt, ts', shown) /\
    (forall i, i <> Metrics -> get ts' i = get ts i) /\
    (page <> "Overview" -> ts' = ts) /\
    (page = "Overview" ->
     let coerce := fmap (M := option) (to_numeric parse_number) in
     let m := metrics ts in
     let m' := metrics ts' in
     columns m' = columns m /\
     (forall key, ~ In key kpi_columns -> lookup_col m' key = lookup_col m key) /\
     lookup_col m' "Revenue_CAGR" = coerce (lookup_col m "Revenue_CAGR") /\
     lookup_col m' "Avg_EBITDA_Margin" =
       (if Shapes.has_column m "Revenue_CAGR"
        then coerce (lookup_col m "Avg_EBITDA_Margin")
        else lookup_col m "Avg_EBITDA_Margin") /\
     lookup_col m' "Cost_to_Revenue" =
       (if Shapes.has_column m "Revenue_CAGR" && Shapes.has_column m "Avg_EBITDA_Margin"
        then coerce (lookup_col m "Cost_to_Revenue")
        else lookup_col m "Cost_to_Revenue")) /\
    ((forall key s,
        In key kpi_columns -> lookup_col (metrics ts) key = Some s ->
        s_dtype s = Float64 /\ wf_series s = true) ->
     ts' = ts).
Proof.
  destruct (render_store parse_number px to_csv page w ts) as (shown & E).
  do 2 eexists. split; [exact E|].
  destruct (String.eqb page "Overview") eqn:Ep.
  - split; [intros [] Hi; try reflexivity; now elim Hi|].
    split; [intros Hp; apply String.eqb_eq in Ep; contradiction|].
    cbn [metrics set]. split.
    + intros _. cbv zeta.
      split; [apply kpi_store_columns|].
      split; [apply kpi_store_other|].
      apply kpi_store_exact.
    + intros H. rewrite kpi_store_id by exact H. apply set_metrics_id.
  - apply String.eqb_neq in Ep.
    split; [reflexivity|]. split; [reflexivity|].
    split; [intros Hp; contradiction | reflexivity].
Qed.

(** C2 as stated fails: on a metrics table whose [Revenue_CAGR] column
    holds a bad token, the Overview page leaves another metrics table than
    it found, the token replaced by a missing value, and it is the
    overwritten table that the data exploration displays. *)
Lemma overview_overwrites_metrics :
  let ts := Samples.tables_with_metrics Samples.metrics_bad_token in
  exists ts' shown,
    render Samples.parse_decimal Samples.px_accepts Samples.header_line
      "Overview" (mkWidgets 2 0 0) ts = (Ok tt, ts', shown) /\
    lookup_col (metrics ts) "Revenue_CAGR" = Some (strs ["12.5"; "abc"]) /\
    lookup_col (metrics ts') "Revenue_CAGR" = Some (floats [num 125 10; CNaN]) /\
    metrics ts' <> metrics ts /\
    In (DataFrameView (metrics ts')) shown.
Proof.
  intros ts. do 2 eexists. split; [vm_compute; reflexivity|].
  split; [reflexivity|]. split; [reflexivity|].
  split; [discriminate|]. simpl. auto 20.
Qed.

(** A page on tables that lack every column it charts: each block reports
    its own error and the page goes on to the next one. *)
Example financial_page_reports_each_block :
  render Samples.parse_decimal Samples.px_checks Samples.header_line
    "Financial Analysis" Samples.first_choices
    (Samples.tables_with_metrics Samples.scenario_table) =
  (Ok tt, Samples.tables_with_metrics Samples.scenario_table,
   [ Title "Analisis Kinerja Keuangan";
     Subheader "Metrik Keuangan Utama per Skenario";
     ErrorBox
       "Error saat membuat visualisasi metrik keuangan: missing columns: Revenue_CAGR, Avg_EBITDA_Margin, Avg_Net_Margin";
     Subheader "Analisis Pertumbuhan";
     ErrorBox
       "Error saat membuat visualisasi analisis pertumbuhan: missing columns: Revenue_CAGR, EBITDA_CAGR";
     Subheader "Visualisasi Kustom";
     ErrorBox "Error: Tidak ada kolom numerik yang ditemukan di financial_metrics." ]).
Proof. vm_compute. reflexivity. Qed.

Example risk_run_finishes :
  exists ts fig,
    run Samples.parse_decimal Samples.px_accepts Samples.header_line
      Samples.fs_ok "Risk Analysis" Samples.first_choices =
    Finished ts
      (sidebar ++
       [ Title "Analisis Risiko";
         Subheader "Metrik Risiko per Skenario";
         ErrorBox "Error: Kolom 'Revenue_Volatility' tidak ditemukan di data metrics.";
         Subheader "Analisis Dekomposisi Risiko";
         PlotlyChart fig ] ++
       footer).
Proof. do 2 eexists. vm_compute. reflexivity. Qed.

(** C8, as the code has it.  No exception escapes a page render.  The
    page runs every one of its display calls and blocks in turn, whatever
    the blocks before did, and what it displays is what they display one
    after the other; each block fills its slot, with its output or with
    one error after at most the widgets it had drawn.  The three KPI tiles
    are one block. *)
Theorem pages_isolate_blocks (parse_number : string -> option Q)
    (px : figure -> option exn) (to_csv : DataFrame -> string)
    (page : string) (w : widgets) (ts : TableSet) :
  let items := plan parse_number px to_csv page w in
  exists ts',
    render parse_number px to_csv page w ts = (Ok tt, ts', concat (trace items ts)) /\
    Forall (fun shown => slot_filled shown = true) (trace items ts) /\
    length (trace items ts) = length items.
Proof.
  intros items. rewrite render_plan. apply exec_guarded, plan_guarded.
Qed.

(** C8 as stated fails: on a metrics table that has the [Revenue_CAGR]
    column but lacks [Cost_to_Revenue], the error is not confined to the
    cost tile; the Overview page displays no KPI tile at all, the revenue
    tile included. *)
Lemma kpi_tiles_fail_together :
  let ts := Samples.tables_with_metrics Samples.metrics_no_cost in
  exists ts' shown,
    render Samples.parse_decimal Samples.px_accepts Samples.header_line
      "Overview" Samples.first_choices ts = (Ok tt, ts', shown) /\
    lookup_col (metrics ts) "Revenue_CAGR" = Some (floats [num 25 2; num 8 1]) /\
    In (kpi_error "Cost_to_Revenue") shown /\
    forall label value, ~ In (Metric label value) shown.
Proof.
  intros ts. do 2 eexists. split; [vm_compute; reflexivity|].
  split; [reflexivity|]. split; [simpl; auto 20|].
  intros label value H. simpl in H.
  repeat destruct H as [H|H]; try discriminate H. exact H.
Qed.

(** *** The Overview KPI tiles *)




(** A column in which no token denotes a number: its tile displays [nan]. *)
Example kpi_all_missing_shows_nan :
  exists ts',
    overview_kpi Samples.parse_decimal
      (Samples.tables_with_metrics
         [ ("Revenue_CAGR", strs ["n/a"; "abc"]);
           ("Avg_EBITDA_Margin", floats [num 30 1; num 25 1]);
           ("Cost_to_Revenue", floats [num 70 1; num 75 1]) ]) =
    (Ok tt, ts',
     [ nan_warning;
       Metric "Rata-rata Revenue CAGR" "nan%";
       Metric "Rata-rata EBITDA Margin" "27.50%";
       Metric "Rata-rata Efisiensi Biaya" "72.50%" ]).
Proof. eexists. vm_compute. reflexivity. Qed.

(** C3, as the code has it.  On a metrics table whose [Revenue_CAGR]
    column holds 12.5 and 8.0 and which also carries the two other KPI
    columns, the mean is 10.25 and its tile displays [10.25%]. *)
Theorem kpi_revenue_cagr_mean (parse_number : string -> option Q)
    (ts : TableSet) (rc s2 s3 : Series) :
  lookup_col (metrics ts) "Revenue_CAGR" = Some rc ->
  s_values rc = [CNum (25 # 2); CNum (8 # 1)] ->
  lookup_col (metrics ts) "Avg_EBITDA_Margin" = Some s2 ->
  lookup_col (metrics ts) "Cost_to_Revenue" = Some s3 ->
  exists ts' shown m,
    overview_kpi parse_number ts = (Ok tt, ts', shown) /\
    mean (to_numeric parse_number rc) = Some m /\ (m == 1025 # 100)%Q /\
    In (Metric "Rata-rata Revenue CAGR" "10.25%") shown.
Proof.
  intros H1 Hv H2 H3.
  do 3 eexists. split; [apply (overview_kpi_ok parse_number ts rc s2 s3 H1 H2 H3)|].
  assert (Em : mean (to_numeric parse_number rc) =
               Some (Qsum [25 # 2; 8 # 1] / inject_Z 2)%Q).
  { unfold mean, to_numeric. simpl. rewrite Hv. reflexivity. }
  split; [exact Em|]. split; [reflexivity|].
  apply in_or_app. right. left. rewrite Em. reflexivity.
Qed.

Lemma kpi_revenue_cagr_mean_witness :
  exists ts' shown,
    overview_kpi Samples.parse_decimal
      (Samples.tables_with_metrics Samples.metrics_three_kpis) = (Ok tt, ts', shown) /\
    In (Metric "Rata-rata Revenue CAGR" "10.25%") shown.
Proof.
  destruct (kpi_revenue_cagr_mean Samples.parse_decimal
              (Samples.tables_with_metrics Samples.metrics_three_kpis)
              (floats [num 25 2; num 8 1])
              (floats [num 30 1; num 25 1]) (floats [num 70 1; num 75 1])
              eq_refl eq_refl eq_refl eq_refl) as (ts' & shown & m & E & _ & _ & Hin).
  exists ts', shown. split; [exact E | exact Hin].
Defined.

(** C3 as stated fails: on the table that has exactly the two rows of the
    scenario, with their two columns, the block stops at the absent
    [Avg_EBITDA_Margin] column and displays an error and no tile. *)
Lemma kpi_two_rows_no_tile :
  overview_kpi Samples.parse_decimal
    (Samples.tables_with_metrics Samples.metrics_two_rows) =
  (Ok tt, Samples.tables_with_metrics Samples.metrics_two_rows,
   [ErrorBox "Error saat mengkonversi data numerik: 'Avg_EBITDA_Margin'"]).
Proof. vm_compute. reflexivity. Qed.

End ScriptFacts.

(** ** Further properties of the script *)

Module RunFacts.

Import Pandas PandasFacts Script ScriptFacts Props Shapes.

(** X1.  No run of the script ends in an uncaught exception.  A run halts
    at the guard, having displayed the sidebar and one error, exactly when
    one of the six reads fails; otherwise it renders its page and ends
    with the footer. *)
Theorem run_stops_or_finishes (parse_number : string -> option Q)
    (px : figure -> option exn) (to_csv : DataFrame -> string)
    (fs : Loader.filesystem) (page : string) (w : widgets) :
  match Loader.first_failing fs with
  | Some _ =>
      exists msg,
        run parse_number px to_csv fs page w = Stopped (sidebar ++ [ErrorBox msg])
  | None =>
      exists ts shown,
        run parse_number px to_csv fs page w =
        Finished ts (sidebar ++ shown ++ footer)
  end.
Proof.
  destruct (Loader.first_failing fs) as [p|] eqn:Hf.
  - pose proof (LoaderFacts.load_data_cases fs) as H. rewrite Hf in H.
    unfold run.
    destruct (fs p); [rewrite H; eexists; reflexivity ..| contradiction].
  - now apply run_finishes.
Qed.

(** X2.  When the six files parse, [load_data] displays nothing and binds
    each table variable to the table of its own file, and the page is
    rendered on exactly those six tables. *)
Theorem load_binds_each_file (parse_number : string -> option Q)
    (px : figure -> option exn) (to_csv : DataFrame -> string)
    (fs : Loader.filesystem) (c g m s f fc : DataFrame)
    (page : string) (w : widgets) :
  fs "xerpihan_combined_data.csv" = Loader.Parses c ->
  fs "xerpihan_combined_data_with_growth.csv" = Loader.Parses g ->
  fs "xerpihan_comprehensive_metrics.csv" = Loader.Parses m ->
  fs "xerpihan_final_summary.csv" = Loader.Parses s ->
  fs "xerpihan_financial_metrics.csv" = Loader.Parses f ->
  fs "xerpihan_forecast_combined.csv" = Loader.Parses fc ->
  Loader.load_data fs = ((Some c, Some g, Some m, Some s, Some f, Some fc), []) /\
  exists ts' shown,
    render parse_number px to_csv page w (mkTables c g m s f fc) =
    (Ok tt, ts', shown) /\
    run parse_number px to_csv fs page w = Finished ts' (sidebar ++ shown ++ footer).
Proof.
  intros H1 H2 H3 H4 H5 H6.
  assert (E : Loader.load_data fs =
              ((Some c, Some g, Some m, Some s, Some f, Some fc), [])).
  { unfold Loader.load_data, Loader.load_try, Loader.read_csv.
    rewrite H1, H2, H3, H4, H5, H6. reflexivity. }
  split; [exact E|].
  destruct (render_store parse_number px to_csv page w (mkTables c g m s f fc))
    as (shown & R).
  do 2 eexists. split; [exact R|].
  unfold run. rewrite E. unfold run_loaded. cbn [Loader.first unpack].
  rewrite R. reflexivity.
Qed.

Lemma load_binds_each_file_witness :
  Loader.load_data Samples.fs_ok =
  ((Some Samples.scenario_table, Some Samples.scenario_table,
    Some Samples.scenario_table, Some Samples.scenario_table,
    Some Samples.scenario_table, Some Samples.scenario_table), []).
Proof.
  exact (proj1 (load_binds_each_file Samples.parse_decimal Samples.px_accepts
                  Samples.header_line Samples.fs_ok _ _ _ _ _ _
                  "Overview" Samples.first_choices
                  eq_refl eq_refl eq_refl eq_refl eq_refl eq_refl)).
Defined.

End RunFacts.

Module BlockFacts.

Import Pandas PandasFacts Script ScriptFacts Props Shapes.

(** *** The risk metrics block *)

(** X4.  The risk metrics block names the first column it misses, in the
    order Scenario, Revenue_Volatility, Margin_Volatility, and builds no
    chart then.  With the three columns it charts a frame of exactly these
    three columns; a [KeyError] out of Plotly is reported as a column
    missing from the metrics data, any other exception as a chart error. *)
Theorem risk_block_names_first_absent (px : figure -> option exn) (ts : TableSet) :
  match first_absent (metrics ts)
          ["Scenario"; "Revenue_Volatility"; "Margin_Volatility"] with
  | Some k =>
      risk_metrics_bar px ts =
      (Ok tt, ts,
       [ErrorBox ("Error: Kolom " +:+ repr k +:+ " tidak ditemukan di data metrics.")])
  | None =>
      exists sc rv mv,
        lookup_col (metrics ts) "Scenario" = Some sc /\
        lookup_col (metrics ts) "Revenue_Volatility" = Some rv /\
        lookup_col (metrics ts) "Margin_Volatility" = Some mv /\
        let fig :=
          mkFigure "bar"
            [("Scenario", sc); ("Revenue_Volatility", rv); ("Margin_Volatility", mv)]
            (Some "Scenario") ["Revenue_Volatility"; "Margin_Volatility"] None
            "Metrik Volatilitas per Skenario" "barmode=group" in
        risk_metrics_bar px ts =
        (Ok tt, ts,
         [match px fig with
          | None => PlotlyChart fig
          | Some (KeyError k) =>
              ErrorBox ("Error: Kolom " +:+ k +:+ " tidak ditemukan di data metrics.")
          | Some e => ErrorBox ("Error saat membuat visualisasi risiko: " +:+ str e)
          end])
  end.
Proof.
  unfold first_absent, risk_metrics_bar, try_except, bind, read, lift, getitem,
    plotly_chart, of_dict.
  cbn [List.find get].
  destruct (lookup_col (metrics ts) "Scenario") as [sc|]; [|reflexivity].
  destruct (lookup_col (metrics ts) "Revenue_Volatility") as [rv|]; [|reflexivity].
  destruct (lookup_col (metrics ts) "Margin_Volatility") as [mv|]; [|reflexivity].
  exists sc, rv, mv. repeat (split; [reflexivity|]). cbn [ret].
  destruct (px _) as [[f|k|m]|]; reflexivity.
Qed.

(** *** The custom chart *)

Lemma numeric_columns_In (df : DataFrame) (c : string) :
  In c (numeric_columns df) <-> exists s, In (c, s) df /\ s_dtype s = Float64.
Proof.
  unfold numeric_columns. rewrite in_map_iff. split.
  - intros ([k s] & <- & H). apply List.filter_In in H as [H D].
    exists s. split; [exact H|]. destruct (s_dtype s); [reflexivity | discriminate].
  - intros (s & H & D). exists (c, s). split; [reflexivity|].
    apply List.filter_In. split; [exact H|]. now rewrite D.
Qed.

Lemma numeric_columns_sublist (df : DataFrame) :
  sublist (numeric_columns df) (columns df).
Proof.
  unfold numeric_columns, columns.
  induction df as [|[k s] df IH]; simpl; [constructor|].
  destruct (is_number_dtype (s_dtype s)); simpl; now constructor.
Qed.

(** X5.  The custom chart offers for both axes exactly the float columns
    of the financial metrics table, in the order they have in the table
    (the offered list is a subsequence of the column labels), and charts
    the two selected ones, which are float columns of that table whatever the
    state of the selectors; with no float column it displays an error and
    draws no selector. *)
Theorem custom_axes_are_numeric (px : figure -> option exn) (w : widgets)
    (ts : TableSet) :
  let df := financial_metrics ts in
  let cols := numeric_columns df in
  (forall c, In c cols <-> exists s, In (c, s) df /\ s_dtype s = Float64) /\
  sublist cols (columns df) /\
  match cols with
  | [] =>
      financial_custom px w ts =
      (Ok tt, ts,
       [ErrorBox "Error: Tidak ada kolom numerik yang ditemukan di financial_metrics."])
  | _ =>
      exists x y,
        selected cols (x_axis_choice w) = Some x /\
        selected cols (y_axis_choice w) = Some y /\
        In x cols /\ In y cols /\
        financial_custom px w ts =
        (Ok tt, ts,
         [ Selectbox "Pilih metrik sumbu X" cols;
           Selectbox "Pilih metrik sumbu Y" cols;
           chart_or_error px
             (mkFigure "scatter" df (Some x) [y] (Some "Scenario")
                (y +:+ " vs " +:+ x +:+ " per Skenario") "trendline=ols")
             (fun e => "Error saat membuat visualisasi kustom: " +:+ str e) ])
  end.
Proof.
  intros df cols. split; [apply numeric_columns_In|].
  split; [apply numeric_columns_sublist|].
  unfold financial_custom, try_except, bind, read, plotly_chart. cbn [get].
  fold df. fold cols.
  destruct cols as [|c cs] eqn:Ec; [reflexivity|].
  assert (exists x, selected (c :: cs) (x_axis_choice w) = Some x) as [x Hx].
  { unfold selected. destruct (nth_error _ _); eauto. }
  assert (exists y, selected (c :: cs) (y_axis_choice w) = Some y) as [y Hy].
  { unfold selected. destruct (nth_error _ _); eauto. }
  exists x, y. split; [exact Hx|]. split; [exact Hy|].
  split; [apply (selectbox_choice _ _ _ Hx)|].
  split; [apply (selectbox_choice _ _ _ Hy)|].
  rewrite !selectbox_run. unfold selected in Hx, Hy. rewrite Hx, Hy.
  unfold chart_or_error. cbn [option_list fmt].
  destruct (px _); reflexivity.
Qed.

End BlockFacts.

Module KpiFacts.

Import Pandas PandasFacts Script ScriptFacts Props Shapes.

Section Kpi.

Variable parse_number : string -> option Q.

Lemma to_numeric_idem (s : Series) :
  to_numeric parse_number (to_numeric parse_number s) = to_numeric parse_number s.
Proof.
  apply to_numeric_id; [reflexivity|].
  unfold wf_series, to_numeric. simpl.
  induction (s_values s) as [|c cs IH]; simpl; [reflexivity|].
  now rewrite coerce_cell_not_str, IH.
Qed.

Lemma recoerce_id (df : DataFrame) (key : string) (s : Series) :
  lookup_col df key = Some (to_numeric parse_number s) ->
  setitem df key (to_numeric parse_number (to_numeric parse_number s)) = df.
Proof. intros H. rewrite to_numeric_idem. now apply setitem_id. Qed.

Lemma set_set_metrics (ts : TableSet) (a b : DataFrame) :
  set (set ts Metrics a) Metrics b = set ts Metrics b.
Proof. reflexivity. Qed.

(** X6.  The KPI block is idempotent: run again on the tables it left, it
    leaves them as they are and displays the same elements. *)
Theorem kpi_block_idempotent (ts : TableSet) :
  exists ts1 shown,
    overview_kpi parse_number ts = (Ok tt, ts1, shown) /\
    overview_kpi parse_number ts1 = (Ok tt, ts1, shown).
Proof.
  pose proof (overview_kpi_missing parse_number ts) as Hm.
  destruct (lookup_col (metrics ts) "Revenue_CAGR") as [s1|] eqn:H1.
  2:{ do 2 eexists. split; [exact Hm|]. exact Hm. }
  set (n1 := to_numeric parse_number s1) in *.
  set (df1 := setitem (metrics ts) "Revenue_CAGR" n1) in *.
  assert (A1 : lookup_col df1 "Revenue_CAGR" = Some n1)
    by apply lookup_setitem_same.
  destruct (lookup_col (metrics ts) "Avg_EBITDA_Margin") as [s2|] eqn:H2.
  2:{ cbv zeta in Hm. do 2 eexists. split; [exact Hm|].
      pose proof (overview_kpi_missing parse_number (set ts Metrics df1)) as Hm1.
      cbn [metrics set] in Hm1. rewrite A1 in Hm1.
      unfold df1 at 1 in Hm1. rewrite lookup_setitem_other in Hm1 by discriminate.
      rewrite H2 in Hm1. cbv zeta in Hm1.
      unfold n1 in Hm1. rewrite recoerce_id in Hm1 by exact A1. exact Hm1. }
  set (n2 := to_numeric parse_number s2) in *.
  set (df2 := setitem df1 "Avg_EBITDA_Margin" n2) in *.
  assert (B1 : lookup_col df2 "Revenue_CAGR" = Some n1).
  { unfold df2. now rewrite lookup_setitem_other by discriminate. }
  assert (B2 : lookup_col df2 "Avg_EBITDA_Margin" = Some n2)
    by apply lookup_setitem_same.
  destruct (lookup_col (metrics ts) "Cost_to_Revenue") as [s3|] eqn:H3.
  2:{ cbv zeta in Hm. do 2 eexists. split; [exact Hm|].
      pose proof (overview_kpi_missing parse_number (set ts Metrics df2)) as Hm2.
      cbn [metrics set] in Hm2. rewrite B1, B2 in Hm2.
      unfold df2 at 1, df1 at 1 in Hm2.
      rewrite !lookup_setitem_other in Hm2 by discriminate.
      rewrite H3 in Hm2. cbv zeta in Hm2.
      unfold n1 in Hm2. rewrite recoerce_id in Hm2 by exact B1.
      unfold n2 in Hm2. rewrite recoerce_id in Hm2 by exact B2. exact Hm2. }
  clear Hm.
  set (n3 := to_numeric parse_number s3).
  set (df3 := setitem df2 "Cost_to_Revenue" n3).
  assert (C1 : lookup_col df3 "Revenue_CAGR" = Some n1).
  { unfold df3. now rewrite lookup_setitem_other by discriminate. }
  assert (C2 : lookup_col df3 "Avg_EBITDA_Margin" = Some n2).
  { unfold df3. now rewrite lookup_setitem_other by discriminate. }
  assert (C3 : lookup_col df3 "Cost_to_Revenue" = Some n3)
    by apply lookup_setitem_same.
  do 2 eexists.
  split; [apply (overview_kpi_ok parse_number ts s1 s2 s3 H1 H2 H3)|].
  fold n1 n2 n3 df1 df2 df3.
  rewrite (overview_kpi_ok parse_number (set ts Metrics df3) n1 n2 n3 C1 C2 C3).
  cbn [metrics set].
  unfold n1 at 1 2 3 4. rewrite to_numeric_idem. fold n1.
  unfold n2 at 1 2 3 4. rewrite to_numeric_idem. fold n2.
  unfold n3 at 1 2 3 4. rewrite to_numeric_idem. fold n3.
  rewrite (setitem_id df3 _ _ C1), (setitem_id df3 _ _ C2), (setitem_id df3 _ _ C3).
  reflexivity.
Qed.

Lemma existsb_isnull_lookup (cs : list cell) :
  existsb isnull cs = true <-> exists i, cs !! i = Some CNaN.
Proof.
  rewrite existsb_exists. split.
  - intros (c & Hin & Hc). destruct c; try discriminate.
    apply list_elem_of_In, list_elem_of_lookup in Hin. exact Hin.
  - intros (i & Hi). exists CNaN. split; [|reflexivity].
    apply list_elem_of_In, list_elem_of_lookup. eauto.
Qed.

(** An entry that the coercion turns into a missing value. *)
Lemma coerced_missing (s : Series) :
  existsb isnull (s_values (to_numeric parse_number s)) = true <->
  exists i,
    s_values s !! i = Some CNaN \/
    exists tok, s_values s !! i = Some (CStr tok) /\ parse_number tok = None.
Proof.
  rewrite existsb_isnull_lookup.
  destruct (to_numeric_coerced parse_number s) as (_ & _ & _ & _ & H).
  split; intros (i & Hi); exists i; apply H, Hi.
Qed.

(** X7.  When the three KPI columns exist, the block displays its warning
    exactly when one of them has an entry that is missing or is a token
    that denotes no number. *)
Theorem kpi_warning_iff_invalid (ts : TableSet) (s1 s2 s3 : Series) :
  lookup_col (metrics ts) "Revenue_CAGR" = Some s1 ->
  lookup_col (metrics ts) "Avg_EBITDA_Margin" = Some s2 ->
  lookup_col (metrics ts) "Cost_to_Revenue" = Some s3 ->
  exists ts' shown,
    overview_kpi parse_number ts = (Ok tt, ts', shown) /\
    (In nan_warning shown <->
     exists s i,
       In s [s1; s2; s3] /\
       (s_values s !! i = Some CNaN \/
        exists tok, s_values s !! i = Some (CStr tok) /\ parse_number tok = None)).
Proof.
  intros H1 H2 H3. do 2 eexists.
  split; [apply (overview_kpi_ok parse_number ts s1 s2 s3 H1 H2 H3)|].
  set (b := _ || _).
  assert (Hb : b = true <->
               exists s, In s [s1; s2; s3] /\
                 existsb isnull (s_values (to_numeric parse_number s)) = true).
  { unfold b. rewrite !orb_true_iff. simpl. split.
    - intros [H|[H|[H|H]]]; [exists s1 | exists s2 | exists s3 | discriminate];
        (split; [auto | exact H]).
    - intros (s & [<-|[<-|[<-|[]]]] & H); auto. }
  split.
  - intros Hin. assert (b = true) as Hbt.
    { destruct b; [reflexivity|]. simpl in Hin.
      destruct Hin as [Hin|[Hin|[Hin|[]]]]; discriminate. }
    apply Hb in Hbt as (s & Hs & He). apply coerced_missing in He as (i & Hi).
    eauto.
  - intros (s & i & Hs & Hi).
    assert (b = true) as ->.
    { apply Hb. exists s. split; [exact Hs|]. apply coerced_missing. eauto. }
    now left.
Qed.

Lemma rectangular_setitem (df : DataFrame) (n : nat) (key : string) (s s' : Series) :
  rectangular df n -> lookup_col df key = Some s ->
  length (s_values s') = n -> rectangular (setitem df key s') n.
Proof.
  unfold rectangular. intros HF. revert s.
  induction HF as [|[k v] df Hv HF IH]; simpl; intros s Hl Hn; [discriminate|].
  destruct (String.eqb k key).
  - constructor; assumption.
  - constructor; [assumption | eapply IH; eassumption].
Qed.

Lemma rectangular_lookup (df : DataFrame) (n : nat) (key : string) (s : Series) :
  rectangular df n -> lookup_col df key = Some s -> length (s_values s) = n.
Proof.
  unfold rectangular. induction 1 as [|[k v] df Hv HF IH]; simpl; [discriminate|].
  destruct (String.eqb k key); [now intros [= <-] | exact IH].
Qed.

Lemma kpi_store_rectangular (df : DataFrame) (n : nat) :
  rectangular df n -> rectangular (kpi_store parse_number df) n.
Proof.
  intros R. unfold kpi_store.
  destruct (lookup_col df "Revenue_CAGR") as [s1|] eqn:H1; [|exact R].
  assert (R1 : rectangular (setitem df "Revenue_CAGR" (to_numeric parse_number s1)) n).
  { eapply rectangular_setitem; [exact R | exact H1|].
    rewrite to_numeric_length. eapply rectangular_lookup; eassumption. }
  destruct (lookup_col df "Avg_EBITDA_Margin") as [s2|] eqn:H2; [|exact R1].
  set (df1 := setitem df "Revenue_CAGR" _) in *.
  assert (R2 : rectangular (setitem df1 "Avg_EBITDA_Margin"
                              (to_numeric parse_number s2)) n).
  { eapply rectangular_setitem; [exact R1 | |].
    - unfold df1. rewrite lookup_setitem_other by discriminate. exact H2.
    - rewrite to_numeric_length. exact (rectangular_lookup df n _ s2 R H2). }
  destruct (lookup_col df "Cost_to_Revenue") as [s3|] eqn:H3; [|exact R2].
  eapply rectangular_setitem; [exact R2 | |].
  - unfold df1. rewrite !lookup_setitem_other by discriminate. exact H3.
  - rewrite to_numeric_length. exact (rectangular_lookup df n _ s3 R H3).
Qed.

(** X8.  The KPI block keeps the shape of the metrics table: a table whose
    columns all have [n] entries is left with columns of [n] entries, and
    each column it leaves stands for a column of the same label and length
    that is either untouched or, for a KPI label, its coercion, a float
    column without text. *)
Theorem kpi_block_keeps_shape (ts : TableSet) :
  exists ts' shown,
    overview_kpi parse_number ts = (Ok tt, ts', shown) /\
    (forall n, rectangular (metrics ts) n -> rectangular (metrics ts') n) /\
    (forall key s',
       lookup_col (metrics ts') key = Some s' ->
       exists s,
         lookup_col (metrics ts) key = Some s /\
         length (s_values s') = length (s_values s) /\
         (s' = s \/
          In key kpi_columns /\ s' = to_numeric parse_number s /\
          s_dtype s' = Float64 /\ wf_series s' = true)).
Proof.
  destruct (overview_kpi_run parse_number ts) as (shown & E & _).
  do 2 eexists. split; [exact E|]. cbn [metrics set].
  split; [apply kpi_store_rectangular|].
  intros key s' Hl.
  destruct (In_dec string_dec key kpi_columns) as [Hin|Hn].
  - destruct (kpi_store_kpi parse_number (metrics ts) key Hin) as [Hk|Hk];
      rewrite Hk in Hl.
    + exists s'. auto.
    + destruct (lookup_col (metrics ts) key) as [s|]; [|discriminate].
      injection Hl as <-. exists s. split; [reflexivity|].
      split; [apply to_numeric_length|]. right.
      split; [exact Hin|]. split; [reflexivity|]. split; [reflexivity|].
      unfold wf_series, to_numeric. simpl.
      induction (s_values s) as [|c cs IH]; simpl; [reflexivity|].
      now rewrite coerce_cell_not_str, IH.
  - rewrite kpi_store_other in Hl by exact Hn. exists s'. auto.
Qed.

End Kpi.

Lemma kpi_warning_iff_invalid_witness :
  exists ts' shown,
    overview_kpi Samples.parse_decimal
      (Samples.tables_with_metrics Samples.metrics_bad_token) = (Ok tt, ts', shown) /\
    In nan_warning shown.
Proof.
  destruct (kpi_warning_iff_invalid Samples.parse_decimal
              (Samples.tables_with_metrics Samples.metrics_bad_token)
              (strs ["12.5"; "abc"])
              (floats [num 30 1; num 25 1]) (floats [num 70 1; num 75 1])
              eq_refl eq_refl eq_refl) as (ts' & shown & E & H).
  exists ts', shown. split; [exact E|]. apply H.
  exists (strs ["12.5"; "abc"]), 1%nat. split; [now left|].
  right. exists "abc". split; reflexivity.
Defined.

End KpiFacts.

Module FrameFacts.

Import Pandas PandasFacts Script ScriptFacts Props Shapes.

(** *** Row filters *)

Lemma select_map_filter {A} (f : A -> bool) (xs : list A) :
  select (map f xs) xs = List.filter f xs.
Proof.
  induction xs as [|x xs IH]; simpl; [reflexivity|].
  destruct (f x); now rewrite IH.
Qed.

Lemma lookup_filter_rows (df : DataFrame) (mask : list bool) (key : string) :
  lookup_col (filter_rows df mask) key =
  (fun s => mkSeries (s_dtype s) (select mask (s_values s))) <$> lookup_col df key.
Proof.
  unfold filter_rows. induction df as [|[k s] df IH]; simpl; [reflexivity|].
  destruct (String.eqb k key); [reflexivity | exact IH].
Qed.

Lemma kept_rows_are_revenue (category : Series) :
  Forall (fun c => c = CStr "Pendapatan")
    (select (eq_str category "Pendapatan") (s_values category)).
Proof.
  unfold eq_str. rewrite select_map_filter. apply List.Forall_forall.
  intros c Hc. apply List.filter_In in Hc as [_ Hc].
  destruct c as [s| |]; simpl in Hc; try discriminate.
  apply String.eqb_eq in Hc. now subst.
Qed.

(** *** Rows by position *)

Lemma filter_map_shift (g : nat -> bool) (l : list nat) :
  List.filter g (map S l) = map S (List.filter (fun i => g (S i)) l).
Proof.
  induction l as [|i l IH]; simpl; [reflexivity|].
  destruct (g (S i)); simpl; now rewrite IH.
Qed.

Lemma positions_cons (f : cell -> bool) (c : cell) (cs : list cell) :
  positions f (c :: cs) = (if f c then [0] else []) ++ map S (positions f cs).
Proof.
  unfold positions. cbn [length seq]. rewrite <- seq_shift.
  cbn [List.filter nth_error]. rewrite filter_map_shift.
  destruct (f c); reflexivity.
Qed.

Lemma positions_spec (f : cell -> bool) (cs : list cell) (i : nat) :
  In i (positions f cs) <-> exists c, nth_error cs i = Some c /\ f c = true.
Proof.
  unfold positions. rewrite List.filter_In, in_seq. split.
  - intros [_ H]. destruct (nth_error cs i) as [c|]; [eauto | discriminate].
  - intros (c & Hc & Hf). rewrite Hc. split; [|exact Hf].
    assert (i < length cs) by (apply nth_error_Some; congruence). lia.
Qed.

Lemma positions_lt (f : cell -> bool) (cs : list cell) :
  Forall (fun i => i < length cs) (positions f cs).
Proof.
  apply List.Forall_forall. intros i Hi.
  apply positions_spec in Hi as (c & Hc & _). apply nth_error_Some. congruence.
Qed.

(** The revenue positions are the positions that hold the revenue
    category. *)
Lemma revenue_positions_spec (cs : list cell) (i : nat) :
  In i (revenue_positions cs) <-> nth_error cs i = Some (CStr "Pendapatan").
Proof.
  unfold revenue_positions. rewrite positions_spec. split.
  - intros (c & Hc & Hf). destruct c as [s| |]; simpl in Hf; try discriminate.
    apply String.eqb_eq in Hf. now subst.
  - intros H. eexists. split; [exact H | reflexivity].
Qed.

Lemma take_rows_cons (i : nat) (idx : list nat) (xs : list cell) :
  take_rows (i :: idx) xs =
  match nth_error xs i with Some x => [x] | None => [] end ++ take_rows idx xs.
Proof. reflexivity. Qed.

Lemma take_rows_nil (idx : list nat) : take_rows idx [] = [].
Proof.
  induction idx as [|i idx IH]; [reflexivity|].
  rewrite take_rows_cons, IH. now destruct i.
Qed.

Lemma take_rows_shift (idx : list nat) (x : cell) (xs : list cell) :
  take_rows (map S idx) (x :: xs) = take_rows idx xs.
Proof.
  induction idx as [|i idx IH]; [reflexivity|].
  cbn [map]. rewrite !take_rows_cons, IH. reflexivity.
Qed.

Lemma take_rows_length (idx : list nat) (xs : list cell) :
  Forall (fun i => i < length xs) idx -> length (take_rows idx xs) = length idx.
Proof.
  induction 1 as [|i idx Hi _ IH]; [reflexivity|].
  rewrite take_rows_cons, length_app, IH.
  destruct (nth_error xs i) eqn:E; [reflexivity|].
  apply nth_error_None in E. lia.
Qed.

(** A boolean mask computed from a column keeps the entries at the
    positions where the test holds. *)
Lemma select_take_rows (f : cell -> bool) (cs xs : list cell) :
  select (map f cs) xs = take_rows (positions f cs) xs.
Proof.
  revert xs. induction cs as [|c cs IH]; intros xs; [reflexivity|].
  rewrite positions_cons. destruct xs as [|x xs].
  - rewrite take_rows_nil. cbn [map select]. now destruct (f c).
  - cbn [map select]. destruct (f c); cbn [app].
    + rewrite take_rows_cons, take_rows_shift, IH. reflexivity.
    + rewrite take_rows_shift. apply IH.
Qed.

Lemma filter_rows_rows_at (df : DataFrame) (category : Series) :
  filter_rows df (eq_str category "Pendapatan") =
  rows_at (revenue_positions (s_values category)) df.
Proof.
  unfold filter_rows, rows_at, eq_str, revenue_positions.
  apply map_ext. intros [k s]. now rewrite select_take_rows.
Qed.

Lemma rows_at_columns (idx : list nat) (df : DataFrame) :
  columns (rows_at idx df) = columns df.
Proof.
  unfold columns, rows_at. induction df as [|[k s] df IH]; simpl; congruence.
Qed.

Lemma rows_at_rectangular (idx : list nat) (df : DataFrame) (n : nat) :
  rectangular df n -> Forall (fun i => i < n) idx ->
  rectangular (rows_at idx df) (length idx).
Proof.
  unfold rectangular, rows_at. intros R Hidx.
  induction R as [|[k s] df Hs _ IH]; simpl; constructor; [|exact IH].
  cbn [s_values]. apply take_rows_length. now rewrite Hs.
Qed.

Lemma rows_at_none (df : DataFrame) : nrows (rows_at [] df) = 0.
Proof. now destruct df as [|[k s] df]. Qed.

Lemma rows_at_empty (idx : list nat) (df : DataFrame) (n : nat) (key : string)
    (s : Series) :
  rectangular df n -> lookup_col df key = Some s ->
  Forall (fun i => i < n) idx ->
  empty (rows_at idx df) = match idx with [] => true | _ => false end.
Proof.
  intros R Hs Hidx. pose proof (rows_at_rectangular idx df n R Hidx) as R'.
  destruct df as [|[k0 s0] df]; [discriminate Hs|].
  cbn [rows_at map] in *. apply List.Forall_inv in R'. cbn [s_values] in R'.
  unfold empty, nrows. cbn [s_values]. rewrite R'. now destruct idx.
Qed.

Lemma revenue_positions_lt (df : DataFrame) (n : nat) (category : Series) :
  rectangular df n -> lookup_col df "Category" = Some category ->
  Forall (fun i => i < n) (revenue_positions (s_values category)).
Proof.
  intros R Hc. rewrite <- (KpiFacts.rectangular_lookup df n _ category R Hc).
  apply positions_lt.
Qed.

(** What a revenue block displays is the outcome told from the table. *)
Lemma trend_shown_outcome px (df : DataFrame) (n : nat) no_rows no_years failed
    (fig : DataFrame -> figure) :
  rectangular df n ->
  revenue_outcome px df no_rows no_years failed fig
    (trend_shown px df no_rows no_years failed fig).
Proof.
  intros R. unfold revenue_outcome, trend_shown.
  destruct (lookup_col df "Category") as [cat|] eqn:Hcat; [|reflexivity].
  split; [apply revenue_positions_spec|].
  rewrite filter_rows_rows_at. split; [reflexivity|].
  rewrite (rows_at_empty _ df n _ cat R Hcat (revenue_positions_lt df n cat R Hcat)).
  destruct (revenue_positions (s_values cat)) as [|i idx] eqn:Ei.
  - split; [apply rows_at_none | reflexivity].
  - assert (Y : has_all_years (rows_at (i :: idx) df) = has_all_years df).
    { unfold has_all_years. now rewrite rows_at_columns. }
    rewrite Y. destruct (has_all_years df) eqn:Ey.
    + apply has_all_years_spec in Ey. split; [reflexivity | contradiction].
    + split; [|reflexivity]. intros H. apply has_all_years_spec in H. congruence.
Qed.

(** C5, as the code has it.  On a time-series table, the combined one on
    the Overview page and the forecast one on the Forecasting page, whose
    columns all have the same length, a revenue block displays exactly one
    element and leaves the tables as they are.  The filter keeps the rows
    whose Category is the revenue category, [Pendapatan].  A table without
    Category column makes the block display its chart error, not the
    missing-category error.  A table with the column and no revenue row
    gives zero rows and the missing-category error, and its year columns
    are not checked.  A table with a revenue row has its eight year columns
    checked before the chart is built: the missing-year-columns error when
    one is absent, the chart of the revenue rows, or the chart error,
    otherwise. *)
Theorem revenue_filters_checked (px : figure -> option exn) (ts : TableSet)
    (nc nf : nat) :
  rectangular (combined_data ts) nc ->
  rectangular (forecast_combined ts) nf ->
  (exists e,
     overview_revenue px ts = (Ok tt, ts, [e]) /\
     revenue_outcome px (combined_data ts) no_revenue_msg no_years_msg
       revenue_failed_msg revenue_fig e) /\
  (exists e,
     forecasting_revenue px ts = (Ok tt, ts, [e]) /\
     revenue_outcome px (forecast_combined ts) no_forecast_msg
       no_forecast_years_msg forecast_failed_msg forecast_fig e).
Proof.
  intros Rc Rf. split; eexists; split.
  - apply overview_revenue_run.
  - now apply trend_shown_outcome with (n := nc).
  - apply forecasting_revenue_run.
  - now apply trend_shown_outcome with (n := nf).
Qed.

Lemma rectangular_combined_all_years :
  rectangular Samples.combined_all_years 2.
Proof. unfold rectangular. repeat (apply List.Forall_cons; [reflexivity|]). constructor. Qed.

Lemma rectangular_scenario_table n :
  n = nrows Samples.scenario_table -> rectangular Samples.scenario_table n.
Proof.
  intros ->. unfold rectangular.
  repeat (apply List.Forall_cons; [reflexivity|]). constructor.
Qed.

Lemma revenue_filters_checked_witness :
  exists fig,
    overview_revenue Samples.px_accepts
      (Samples.tables_with_combined Samples.combined_all_years) =
    (Ok tt, Samples.tables_with_combined Samples.combined_all_years,
     [PlotlyChart fig]) /\
    fig_data fig = rows_at [0] Samples.combined_all_years.
Proof.
  destruct (revenue_filters_checked Samples.px_accepts
              (Samples.tables_with_combined Samples.combined_all_years)
              2 (nrows Samples.scenario_table)
              rectangular_combined_all_years
              (rectangular_scenario_table _ eq_refl))
    as [(e & E & _ & _ & Hy & _) _].
  rewrite E, Hy.
  - exists (revenue_fig (rows_at [0] Samples.combined_all_years)).
    split; reflexivity.
  - repeat (apply List.Forall_cons; [cbv; tauto|]). constructor.
Defined.

(** C5 as stated fails on two tables.  On a table without revenue row that
    also lacks seven of the year columns, the block displays the
    missing-category error alone: the year columns are not checked, and no
    missing-year-columns condition is reported though year columns are
    absent.  On a table without Category column, the block does not report
    a missing-category condition: the [KeyError] of the label reaches the
    handler of the block, which displays the chart error. *)
Lemma revenue_missing_years_unreported :
  overview_revenue Samples.px_accepts
    (Samples.tables_with_combined Samples.combined_costs_only) =
  (Ok tt, Samples.tables_with_combined Samples.combined_costs_only,
   [ErrorBox "Error: Tidak ada data pendapatan yang ditemukan."]) /\
  ~ Forall (fun year => In year (columns Samples.combined_costs_only)) years /\
  (forall c, lookup_col Samples.combined_costs_only "Category" = Some c ->
             revenue_positions (s_values c) = []) /\
  lookup_col Samples.scenario_table "Category" = None /\
  forecasting_revenue Samples.px_accepts
    (mkTables Samples.scenario_table Samples.scenario_table
       Samples.scenario_table Samples.scenario_table Samples.scenario_table
       Samples.scenario_table) =
  (Ok tt,
   mkTables Samples.scenario_table Samples.scenario_table
     Samples.scenario_table Samples.scenario_table Samples.scenario_table
     Samples.scenario_table,
   [ErrorBox "Error saat membuat visualisasi peramalan pendapatan: 'Category'"]).
Proof.
  split; [reflexivity|]. split.
  - intros H. apply has_all_years_spec in H. discriminate H.
  - split; [intros c [= <-]; reflexivity|]. split; reflexivity.
Qed.

(** A revenue chart is drawn on the revenue rows of its table. *)
Lemma trend_chart_rows px (df : DataFrame) no_rows no_years failed
    (fig : DataFrame -> figure) (f : figure) :
  (forall rows, fig_data (fig rows) = rows) ->
  trend_shown px df no_rows no_years failed fig = PlotlyChart f ->
  only_revenue_rows df f.
Proof.
  intros Hfig. unfold trend_shown.
  destruct (lookup_col df "Category") as [cat|] eqn:Hcat; [|discriminate].
  destruct (empty _) eqn:Eemp; [discriminate|].
  destruct (has_all_years _); [|discriminate].
  destruct (px _); [discriminate|]. intros [= <-].
  exists cat. split; [exact Hcat|]. cbv zeta. rewrite Hfig.
  split; [apply revenue_positions_spec|].
  split; [apply filter_rows_rows_at|].
  split; [rewrite filter_rows_rows_at; apply rows_at_columns|]. split.
  - eexists. split; [rewrite lookup_filter_rows, Hcat; reflexivity|].
    apply kept_rows_are_revenue.
  - intros n R. pose proof (revenue_positions_lt df n cat R Hcat) as Hlt.
    rewrite filter_rows_rows_at in *.
    split; [now apply rows_at_rectangular with (n := n)|].
    rewrite (rows_at_empty _ df n _ cat R Hcat Hlt) in Eemp.
    destruct (revenue_positions (s_values cat)); [discriminate | simpl; lia].
Qed.

(** X9.  A revenue chart, of the Overview or of the Forecasting page, is
    drawn on the revenue rows of its table and nothing else: its frame is
    the table cut, column by column, to the positions at which the
    Category column holds the revenue category, in their order.  So the
    frame has the columns of the table in their order, its Category column
    holds only the revenue category, and on a table whose columns all have
    the same length it has as many rows as the table has revenue rows, at
    least one. *)
Theorem revenue_charts_hold_revenue_rows (px : figure -> option exn)
    (ts : TableSet) (fig : figure) :
  (overview_revenue px ts = (Ok tt, ts, [PlotlyChart fig]) ->
   only_revenue_rows (combined_data ts) fig) /\
  (forecasting_revenue px ts = (Ok tt, ts, [PlotlyChart fig]) ->
   only_revenue_rows (forecast_combined ts) fig).
Proof.
  rewrite overview_revenue_run, forecasting_revenue_run.
  split; intros [= H]; eapply trend_chart_rows; try exact H; reflexivity.
Qed.

Lemma revenue_charts_hold_revenue_rows_witness :
  exists fig,
    only_revenue_rows Samples.combined_all_years fig /\
    nrows (fig_data fig) = 1.
Proof.
  eexists. split.
  - apply (proj1 (revenue_charts_hold_revenue_rows Samples.px_accepts
                    (Samples.tables_with_combined Samples.combined_all_years) _)).
    reflexivity.
  - reflexivity.
Defined.

(** *** The growth chart *)

Lemma lookup_col_None (df : DataFrame) (k : string) :
  lookup_col df k = None <-> existsb (String.eqb k) (columns df) = false.
Proof.
  unfold columns. induction df as [|[k0 v] df IH]; simpl; [tauto|].
  rewrite (String.eqb_sym k k0). destruct (String.eqb k0 k); simpl; [|exact IH].
  split; discriminate.
Qed.

Lemma missing_labels_present (df : DataFrame) (keys : list string) :
  (forall k, In k keys -> In k (columns df)) -> missing_labels df keys = [].
Proof.
  unfold missing_labels. induction keys as [|k ks IH]; simpl; intros H; [reflexivity|].
  assert (E : existsb (String.eqb k) (columns df) = true).
  { apply existsb_eqb_In, H. now left. }
  rewrite E. simpl. apply IH. intros k' Hk'. apply H. now right.
Qed.

Lemma repeat_list_length {A} (k : nat) (xs : list A) :
  length (repeat_list k xs) = k * length xs.
Proof. induction k; simpl; [reflexivity|]. rewrite length_app. lia. Qed.

Lemma variable_length (n : nat) (vars : list string) :
  length (flat_map (fun v => repeat (CStr v) n) vars) = length vars * n.
Proof.
  induction vars as [|v vs IH]; simpl; [reflexivity|].
  rewrite length_app, repeat_length. lia.
Qed.

Lemma value_length (df : DataFrame) (n : nat) (vars : list string) :
  rectangular df n -> (forall k, In k vars -> In k (columns df)) ->
  length (flat_map s_values (pick df vars)) = length vars * n.
Proof.
  intros R. induction vars as [|v vs IH]; simpl; intros H; [reflexivity|].
  destruct (lookup_col df v) as [s|] eqn:E.
  - simpl. rewrite length_app, IH by auto.
    rewrite (KpiFacts.rectangular_lookup df n v s R E). lia.
  - apply lookup_col_None in E.
    assert (existsb (String.eqb v) (columns df) = true) by (apply existsb_eqb_In; auto).
    congruence.
Qed.

Lemma has_column_existsb (df : DataFrame) (k : string) :
  existsb (String.eqb k) (columns df) = has_column df k.
Proof.
  unfold has_column. destruct (lookup_col df k) eqn:E.
  - destruct (existsb _ _) eqn:X; [reflexivity|].
    apply lookup_col_None in X. congruence.
  - now apply lookup_col_None.
Qed.

Lemma melt_growth (df : DataFrame) (cols : list string) :
  (forall k, In k cols -> In k (columns df)) ->
  melt df ["Scenario"] (Some cols) "variable" "value" =
  if has_column df "value"
  then Raise (OtherError (melt_value_name_msg "value"))
  else
    match lookup_col df "Scenario" with
    | None => Raise (KeyError (melt_missing_msg ["Scenario"]))
    | Some sc =>
        Ok [ ("Scenario",
              mkSeries (s_dtype sc) (repeat_list (length cols) (s_values sc)));
             ("variable",
              mkSeries Object (flat_map (fun v => repeat (CStr v) (nrows df)) cols));
             ("value",
              mkSeries (value_dtype (pick df cols)) (flat_map s_values (pick df cols))) ]
    end.
Proof.
  intros Hsub. unfold melt. rewrite has_column_existsb.
  destruct (has_column df "value"); [reflexivity|].
  unfold missing_labels. cbn [app List.filter].
  fold (missing_labels df cols). rewrite (missing_labels_present df cols Hsub).
  rewrite has_column_existsb. unfold has_column.
  destruct (lookup_col df "Scenario") as [sc|] eqn:Hs.
  - cbn [negb map]. rewrite Hs. reflexivity.
  - reflexivity.
Qed.

(** X10.  Once a growth column is found, the reshaping of the growth table
    raises in two cases only: the table already has a column named
    [value], or it has no Scenario column.  The block then displays its
    chart error on the text of that exception.  Otherwise the table is
    reshaped to the three columns Scenario, variable, value, with one row
    per growth column and table row, and the chart is built on that
    frame. *)
Theorem growth_chart_needs_scenario (px : figure -> option exn) (ts : TableSet) :
  let df := growth_data ts in
  let cols := growth_cols_of df in
  cols <> [] ->
  if has_column df "value" || negb (has_column df "Scenario")
  then
    exists e,
      melt df ["Scenario"] (Some cols) "variable" "value" = Raise e /\
      (if has_column df "value"
       then exists text, e = OtherError text
       else exists text, e = KeyError text) /\
      forecasting_growth px ts = (Ok tt, ts, [ErrorBox (growth_failed_msg e)])
  else
    exists long,
      melt df ["Scenario"] (Some cols) "variable" "value" = Ok long /\
      columns long = ["Scenario"; "variable"; "value"] /\
      (forall n, rectangular df n -> rectangular long (length cols * n)) /\
      forecasting_growth px ts =
      (Ok tt, ts, [chart_or_error px (growth_fig long) growth_failed_msg]).
Proof.
  intros df cols Hne.
  assert (Hsub : forall k, In k cols -> In k (columns df)).
  { intros k Hk. apply growth_cols_of_In in Hk. tauto. }
  rewrite forecasting_growth_run. unfold growth_shown. fold df. fold cols.
  destruct cols as [|c cs] eqn:Ec; [contradiction|]. rewrite <- Ec in *.
  rewrite !(melt_growth df cols Hsub).
  destruct (has_column df "value") eqn:Hv; cbn [orb].
  { eexists. split; [reflexivity|]. split; [eauto | reflexivity]. }
  unfold has_column at 1.
  destruct (lookup_col df "Scenario") as [sc|] eqn:Hs; cbn [negb].
  2:{ eexists. split; [reflexivity|]. split; [eauto | reflexivity]. }
  eexists. split; [reflexivity|]. split; [reflexivity|].
  split; [|reflexivity].
  intros n R. unfold rectangular.
  repeat constructor; cbn [s_values].
  - rewrite repeat_list_length, (KpiFacts.rectangular_lookup df n _ sc R Hs).
    reflexivity.
  - rewrite variable_length.
    destruct df as [|[k0 s0] rest]; [discriminate Hs|].
    apply List.Forall_inv in R. unfold nrows. rewrite R. reflexivity.
  - now apply value_length.
Qed.

Lemma growth_chart_needs_scenario_witness :
  exists fig,
    forecasting_growth Samples.px_accepts
      (mkTables Samples.scenario_table Samples.growth_four_columns
         Samples.scenario_table Samples.scenario_table Samples.scenario_table
         Samples.scenario_table) =
    (Ok tt,
     mkTables Samples.scenario_table Samples.growth_four_columns
       Samples.scenario_table Samples.scenario_table Samples.scenario_table
       Samples.scenario_table,
     [PlotlyChart fig]) /\
    columns (fig_data fig) = ["Scenario"; "variable"; "value"].
Proof.
  pose proof (growth_chart_needs_scenario Samples.px_accepts
                (mkTables Samples.scenario_table Samples.growth_four_columns
                   Samples.scenario_table Samples.scenario_table
                   Samples.scenario_table Samples.scenario_table)) as H.
  cbv zeta in H. specialize (H ltac:(discriminate)).
  change (has_column _ "value" || negb (has_column _ "Scenario")) with false in H.
  cbv iota in H.
  destruct H as (long & _ & Hc & _ & E).
  exists (growth_fig long). split; [exact E | exact Hc].
Defined.

End FrameFacts.

Module PageFacts.

Import Pandas PandasFacts Script ScriptFacts Props Shapes.

Section Overview.

Variable parse_number : string -> option Q.
Variable px : figure -> option exn.
Variable to_csv : DataFrame -> string.

Lemma explore_selected (w : widgets) (ts : TableSet) :
  overview_explore w ts =
  (Ok tt, ts,
   [ Subheader "Eksplorasi Data";
     Selectbox "Pilih dataset untuk dieksplorasi" dataset_names;
     DataFrameView (get ts (explored (dataset_choice w))) ]).
Proof.
  unfold overview_explore.
  erewrite bind_ok by reflexivity. cbv beta iota.
  erewrite bind_ok by apply selectbox_run. cbv beta iota.
  destruct (dataset_choice w) as [|[|[|[|[|n]]]]]; try reflexivity.
  destruct n; reflexivity.
Qed.

(** The Overview page, element by element. *)
Lemma overview_layout (w : widgets) (ts : TableSet) :
  let ts1 := set ts Metrics (kpi_store parse_number (metrics ts)) in
  exists kpi,
    overview_kpi parse_number ts = (Ok tt, ts1, kpi) /\
    render parse_number px to_csv "Overview" w ts =
    (Ok tt, ts1,
     [ Title "Xerpihan Financial Analysis Dashboard";
       Header "Indikator Kinerja Utama" ] ++
     kpi ++
     [ Subheader "Tren Pendapatan per Skenario";
       trend_shown px (combined_data ts) no_revenue_msg no_years_msg
         revenue_failed_msg revenue_fig;
       Subheader "Unduh Data";
       DownloadButton "Unduh Financial Metrics" (to_csv (financial_metrics ts))
         "financial_metrics.csv" "text/csv";
       DownloadButton "Unduh Summary Data" (to_csv (final_summary ts))
         "final_summary.csv" "text/csv";
       Subheader "Eksplorasi Data";
       Selectbox "Pilih dataset untuk dieksplorasi" dataset_names;
       DataFrameView (get ts1 (explored (dataset_choice w))) ]).
Proof.
  intros ts1. destruct (overview_kpi_run parse_number ts) as (kpi & E & _).
  exists kpi. split; [exact E|].
  change (render parse_number px to_csv "Overview" w ts)
    with (overview parse_number px to_csv w ts).
  unfold overview.
  erewrite bind_ok by reflexivity. cbv beta iota.
  erewrite bind_ok by reflexivity. cbv beta iota.
  erewrite bind_ok by exact E. cbv beta iota.
  erewrite bind_ok by reflexivity. cbv beta iota.
  erewrite bind_ok by apply overview_revenue_run. cbv beta iota.
  erewrite bind_ok by reflexivity. cbv beta iota.
  rewrite explore_selected. reflexivity.
Qed.

(** X11.  The Overview page always offers both exports, and what they
    serialise is the financial metrics and the final summary as loaded:
    neither a failure of the KPI or revenue block nor the in-place coercion
    of the metrics table changes them. *)
Theorem overview_exports_loaded_tables (w : widgets) (ts : TableSet) :
  exists ts' before after,
    render parse_number px to_csv "Overview" w ts =
    (Ok tt, ts',
     before ++
     [ Subheader "Unduh Data";
       DownloadButton "Unduh Financial Metrics" (to_csv (financial_metrics ts))
         "financial_metrics.csv" "text/csv";
       DownloadButton "Unduh Summary Data" (to_csv (final_summary ts))
         "final_summary.csv" "text/csv" ] ++
     after) /\
    financial_metrics ts' = financial_metrics ts /\
    final_summary ts' = final_summary ts.
Proof.
  destruct (overview_layout w ts) as (kpi & _ & E).
  exists (set ts Metrics (kpi_store parse_number (metrics ts))). exists
    ([ Title "Xerpihan Financial Analysis Dashboard";
       Header "Indikator Kinerja Utama" ] ++ kpi ++
     [ Subheader "Tren Pendapatan per Skenario";
       trend_shown px (combined_data ts) no_revenue_msg no_years_msg
         revenue_failed_msg revenue_fig ]).
  eexists. split; [|split; reflexivity].
  rewrite E. cbn [app]. rewrite <- List.app_assoc. reflexivity.
Qed.

(** X12.  The data exploration displays the table its selector stands for
    as the KPI block of the same run left it: for Metrics the metrics table
    with its KPI columns coerced, for the four other names the table as
    loaded; a selector state past the last name displays the combined
    table. *)
Theorem exploration_displays_current_table (w : widgets) (ts : TableSet) :
  exists ts' before df,
    render parse_number px to_csv "Overview" w ts =
    (Ok tt, ts',
     before ++
     [ Selectbox "Pilih dataset untuk dieksplorasi" dataset_names;
       DataFrameView df ]) /\
    df = get ts' (explored (dataset_choice w)) /\
    selected dataset_names (dataset_choice w) <> None /\
    (selected dataset_names (dataset_choice w) ≫= (datasets !!.) =
     Some (explored (dataset_choice w))) /\
    match explored (dataset_choice w) with
    | Metrics => df = kpi_store parse_number (metrics ts)
    | i => df = get ts i
    end.
Proof.
  destruct (overview_layout w ts) as (kpi & _ & E).
  exists (set ts Metrics (kpi_store parse_number (metrics ts))). exists
    ([ Title "Xerpihan Financial Analysis Dashboard";
       Header "Indikator Kinerja Utama" ] ++ kpi ++
     [ Subheader "Tren Pendapatan per Skenario";
       trend_shown px (combined_data ts) no_revenue_msg no_years_msg
         revenue_failed_msg revenue_fig;
       Subheader "Unduh Data";
       DownloadButton "Unduh Financial Metrics" (to_csv (financial_metrics ts))
         "financial_metrics.csv" "text/csv";
       DownloadButton "Unduh Summary Data" (to_csv (final_summary ts))
         "final_summary.csv" "text/csv";
       Subheader "Eksplorasi Data" ]).
  eexists. split; [|split; [reflexivity|]].
  - rewrite E. cbn [app]. rewrite <- List.app_assoc. reflexivity.
  - destruct (dataset_choice w) as [|[|[|[|[|n]]]]];
      try (split; [discriminate | split; reflexivity]).
    destruct n; (split; [discriminate | split; reflexivity]).
Qed.

End Overview.

Lemma melt_portfolio :
  melt portfolio_data ["Method"] None "Scenario" "Weight" = Ok Static.portfolio_long.
Proof. vm_compute. reflexivity. Qed.

Lemma melt_risk :
  melt risk_components ["Scenario"] None "Risk_Type" "Risk_Level" =
  Ok Static.risk_long.
Proof. vm_compute. reflexivity. Qed.

(** X13.  The Portfolio Optimization page and the risk decomposition never
    read a loaded table: for every table set they leave it as it is and
    display the same elements, the reshaping of their literal frames (to
    twelve and to nine rows of three columns) cannot fail, and an error
    appears on them only when Plotly raises. *)
Theorem static_charts_ignore_tables (parse_number : string -> option Q)
    (px : figure -> option exn) (to_csv : DataFrame -> string) (w : widgets) :
  columns Static.portfolio_long = ["Method"; "Scenario"; "Weight"] /\
  rectangular Static.portfolio_long 12 /\
  columns Static.risk_long = ["Scenario"; "Risk_Type"; "Risk_Level"] /\
  rectangular Static.risk_long 9 /\
  forall ts,
    render parse_number px to_csv "Portfolio Optimization" w ts =
    (Ok tt, ts,
     [ Title "Optimasi Portofolio";
       Subheader "Alokasi Portofolio per Metode";
       chart_or_error px Static.allocation_fig
         (fun e => "Error saat membuat visualisasi alokasi portofolio: " +:+ str e);
       Subheader "Metrik Kinerja per Metode";
       chart_or_error px Static.performance_fig
         (fun e => "Error saat membuat visualisasi metrik kinerja: " +:+ str e) ]) /\
    risk_decomposition px ts =
    (Ok tt, ts,
     [ chart_or_error px Static.decomposition_fig
         (fun e => "Error saat membuat visualisasi dekomposisi risiko: " +:+ str e) ]).
Proof.
  split; [reflexivity|]. split; [repeat constructor|].
  split; [reflexivity|]. split; [repeat constructor|].
  intros ts. split.
  - change (render parse_number px to_csv "Portfolio Optimization" w ts)
      with (portfolio_optimization px ts).
    unfold portfolio_optimization, portfolio_allocation, portfolio_performance,
      try_except, bind, show, plotly_chart, chart_or_error.
    rewrite melt_portfolio. cbn [lift ret].
    fold Static.allocation_fig Static.performance_fig.
    destruct (px Static.allocation_fig), (px Static.performance_fig); reflexivity.
  - unfold risk_decomposition, try_except, bind, plotly_chart, chart_or_error.
    rewrite melt_risk. cbn [lift ret]. fold Static.decomposition_fig.
    destruct (px Static.decomposition_fig); reflexivity.
Qed.

End PageFacts.
